(** * The trading bot's lifecycle orchestrator (main.py)

    A shallow embedding of [main.py]: the [TradingBot] object, its probe
    endpoints, the signal handler, the start-up sequence [main] and the
    deployment entry point [create_app].

    The collaborators imported by [main.py] (configuration, handler,
    preloader, metrics, caches, aiohttp, asyncio) are not part of the
    program.  Every call into them is an _oracle_: the environment fixes
    whether the call returns or raises, and the embedding records the call
    in a trace.  The program's own control flow (sequencing, [try] /
    [except] / [finally], attribute writes) is written out.  The module
    body (the [__main__] block and the final [app = create_app()]) comes
    last. *)

From Stdlib Require Import ZArith List Bool Lia PrimFloat.
From stdpp Require Import base option list gmap strings pretty.

Local Open Scope Z_scope.

(** ** Python values and exceptions *)

(** JSON-serialisable values, as passed to [web.json_response]. *)
#[local] Unset Elimination Schemes.
Inductive json :=
| JNull
| JBool (b : bool)
| JInt (n : Z)
| JFloat (x : float)
| JStr (s : string)
| JDict (d : gmap string json).
#[local] Set Elimination Schemes.

(** Classes below [Exception].  A class stands for itself and its
    subclasses; [OtherError] is every other subclass of [Exception], with
    its name. *)
Inductive exn_class :=
| ValueError | SecurityError | TimeoutError | OtherError (name : string).

(** [KeyboardInterrupt], [CancelledError] and [SystemExit] derive from
    [BaseException] only: an [except Exception] clause lets them pass. *)
Inductive exn :=
| Exc (c : exn_class) (msg : string)
| KeyboardInterrupt
| CancelledError
| SystemExit (code : Z).

Definition is_Exception (e : exn) : bool :=
  match e with Exc _ _ => true | _ => false end.

(** [str(e)], as interpolated in the log messages. *)
Definition str (e : exn) : string :=
  match e with
  | Exc _ msg => msg
  | KeyboardInterrupt | CancelledError => ""
  | SystemExit _ => "SystemExit"
  end.

(** Outcome of a call: it returns a value or raises. *)
Inductive Res (A : Type) :=
| Ok (a : A)
| Raise (e : exn).
Arguments Ok {A} a.
Arguments Raise {A} e.

(** ** Collaborator objects (opaque) *)

Variant SecurityConfig := SecurityConfigObj.
Record Config := { security : SecurityConfig }.
Variant RateLimiter := RateLimiterObj.
Variant InputValidator := InputValidatorObj.
Variant TelegramHandler := TelegramHandlerObj.

(** Route handlers registered on the aiohttp application. *)
Variant route_handler :=
| r_health_check | r_readiness_check | r_metrics_endpoint | r_root.

(** [web.Application]: its router, as the list of registered GET routes. *)
Definition Application := list (string * route_handler).
Definition add_get (path : string) (h : route_handler) (a : Application)
  : Application := a ++ [(path, h)].

Record AppRunner := { runner_app : Application }.

(** ** The bot object *)

(** Attributes of a [TradingBot] instance.  [None] is Python's [None]; for
    [start_time], which [__init__] does not assign, [None] is "attribute
    not set".  The collaborator classes define neither [__bool__] nor
    [__len__], so an instance is truthy and only [None] is falsy. *)
Record TradingBot := {
  telegram_handler : option TelegramHandler;
  health_server : option AppRunner;
  is_ready : bool;
  config : option Config;
  security_config : option SecurityConfig;
  rate_limiter : option RateLimiter;
  input_validator : option InputValidator;
  start_time : option float
}.

Definition truthy {A} (o : option A) : bool :=
  match o with Some _ => true | None => false end.

(** ** Traces *)

Variant level := INFO | WARNING | ERROR.

Variant task := preload_task | init_bot_task | handler_run_task.

Variant signum := SIGINT | SIGTERM.

(** Calls that leave the program. *)
Inductive call :=
| validate_required_configs
| new_RateLimiter
| new_InputValidator
| create_task (t : task)
| start_metrics_server (port : Z)
| setup_periodic_cleanup
| runner_setup
| int_PORT
| site_start (host : string) (port : Z)
| new_TelegramHandler
| wait_for (t : task) (timeout : float)
| set_ready_status (b : bool)
| get_cache_stats
| get_metrics_summary
| time_time
| handler_run
| runner_cleanup
| health_server_stop
| signal_signal (sig : signum)
| sys_exit (code : Z).

Variant attr :=
| a_telegram_handler | a_health_server | a_is_ready (v : bool) | a_config
| a_security_config | a_rate_limiter | a_input_validator | a_start_time.

Inductive Event :=
| Log (l : level) (msg : string)
| SystemEvent (name detail : string)
| SecurityEvent (name detail : string) (severity : option string)
| Call (c : call) (raised : option exn)
| Assign (a : attr).

(** The program state: the bot instance the code at hand works on (the
    local [bot] of [main], the global [bot_instance] of [create_app]), the
    global [app], and the trace.  Each trace entry keeps the bot as it was
    when the event happened; the newest entry is first. *)
Record St := {
  bot : TradingBot;
  app : option Application;
  trace : list (Event * TradingBot)
}.

(** Events in the order in which they happened. *)
Definition timeline (s : St) : list Event := rev (map fst (trace s)).

(** Bot states observed along the run, oldest first. *)
Definition snapshots (s : St) : list TradingBot := rev (map snd (trace s)).

(** ** A state-and-exception monad for Python code *)

Definition M (A : Type) : Type := St -> Res A * St.

Definition ret {A} (a : A) : M A := fun s => (Ok a, s).

Definition bind {A B} (m : M A) (k : A -> M B) : M B :=
  fun s =>
    match m s with
    | (Ok a, s') => k a s'
    | (Raise e, s') => (Raise e, s')
    end.

Definition raise {A} (e : exn) : M A := fun s => (Raise e, s).

Declare Scope py_scope.
Delimit Scope py_scope with py.
Notation "x <- m ;; k" := (bind m (fun x => k))
  (at level 100, m at next level, right associativity) : py_scope.
Notation "m ;; k" := (bind m (fun _ => k))
  (at level 100, right associativity) : py_scope.
Local Open Scope py_scope.

(** [try: body  except <classes>: handler].  [h e = None] when no clause
    matches [e]; the exception then propagates. *)
Definition try_except {A} (body : M A) (h : exn -> option (M A)) : M A :=
  fun s =>
    match body s with
    | (Ok a, s') => (Ok a, s')
    | (Raise e, s') =>
        match h e with
        | Some k => k s'
        | None => (Raise e, s')
        end
    end.

(** [try: body  finally: fin].  The [finally] suite always runs; when it
    raises, its exception replaces the outcome of the body. *)
Definition try_finally {A} (body : M A) (fin : M unit) : M A :=
  fun s =>
    match body s with
    | (r, s') =>
        match fin s' with
        | (Ok _, s'') => (r, s'')
        | (Raise e, s'') => (Raise e, s'')
        end
    end.

Definition emit (e : Event) : M unit :=
  fun s => (Ok tt, {| bot := bot s; app := app s;
                      trace := (e, bot s) :: trace s |}).

Definition get_bot : M TradingBot := fun s => (Ok (bot s), s).

Definition put_bot (b : TradingBot) : M unit :=
  fun s => (Ok tt, {| bot := b; app := app s; trace := trace s |}).

Definition get_app : M (option Application) := fun s => (Ok (app s), s).

Definition put_app (a : option Application) : M unit :=
  fun s => (Ok tt, {| bot := bot s; app := a; trace := trace s |}).

Definition raised {A} (r : Res A) : option exn :=
  match r with Ok _ => None | Raise e => Some e end.

(** An oracle call: recorded with its outcome, then returns or raises. *)
Definition extern {A} (c : call) (r : Res A) : M A :=
  emit (Call c (raised r));;
  match r with Ok a => ret a | Raise e => raise e end.

(** Logging ([logger], [secure_logger]) is recorded in the trace and
    taken to return. *)
Definition logger (l : level) (msg : string) : M unit := emit (Log l msg).

Definition log_system_event (name detail : string) : M unit :=
  emit (SystemEvent name detail).

Definition log_security_event (name detail : string)
  (severity : option string) : M unit :=
  emit (SecurityEvent name detail severity).

(** [sys.exit(code)] raises [SystemExit]. *)
Definition sys_exit_ {A} (code : Z) : M A :=
  emit (Call (sys_exit code) (Some (SystemExit code)));;
  raise (SystemExit code).

(** Attribute writes on the bot. *)
Definition setattr (a : attr) (f : TradingBot -> TradingBot) : M unit :=
  b <- get_bot;; put_bot (f b);; emit (Assign a).

(** ** The environment of one run *)

(** One outcome per call site of [main] and [create_app]; every site is
    executed at most once per run.  [e_environ_PORT] is [None] when [PORT]
    is unset, and otherwise the outcome of [int()] on its text.
    [e_format] renders a collaborator value interpolated in an f-string. *)
Record Env := {
  e_time : float;
  e_validate_required_configs : Res Config;
  e_RateLimiter : Res RateLimiter;
  e_InputValidator : Res InputValidator;
  e_create_task : task -> Res unit;
  e_start_metrics_server : Res unit;
  e_setup_periodic_cleanup : Res unit;
  e_runner_setup : Res unit;
  e_environ_PORT : option (Res Z);
  e_site_start : Res unit;
  e_TelegramHandler : Res TelegramHandler;
  e_wait_for : Res unit;
  e_set_ready_status : Res unit;
  e_get_cache_stats : Res json;
  e_max_connections : json;
  e_handler_run : Res unit;
  e_runner_cleanup : Res unit;
  e_format : json -> string
}.

(** [type(v).__name__] of a JSON value. *)
Definition type_name (v : json) : string :=
  match v with
  | JNull => "NoneType"
  | JBool _ => "bool"
  | JInt _ => "int"
  | JFloat _ => "float"
  | JStr _ => "str"
  | JDict _ => "dict"
  end.

(** [d[k]] on a JSON value, for a key [k] that is a string literal of the
    source ('performance_cache', 'entries'): plain letters and underscores, so
    that [repr(k)], the text of the [KeyError], is [k] between single
    quotes.  A string indexed by a string has a [TypeError] text of its
    own; every other value is not subscriptable. *)
Definition getitem (v : json) (k : string) : Res json :=
  match v with
  | JDict d =>
      match d !! k with
      | Some x => Ok x
      | None => Raise (Exc (OtherError "KeyError") ("'" +:+ k +:+ "'"))
      end
  | JStr _ =>
      Raise (Exc (OtherError "TypeError")
                 "string indices must be integers, not 'str'")
  | _ =>
      Raise (Exc (OtherError "TypeError")
                 ("'" +:+ type_name v +:+ "' object is not subscriptable"))
  end.

Definition lift {A} (r : Res A) : M A :=
  match r with Ok a => ret a | Raise e => raise e end.

(** ** class TradingBot *)

(** The instance as allocated, before [__init__] has run. *)
Definition blank : TradingBot :=
  {| telegram_handler := None; health_server := None; is_ready := false;
     config := None; security_config := None; rate_limiter := None;
     input_validator := None; start_time := None |}.

Definition set_telegram_handler (v : option TelegramHandler) : M unit :=
  setattr a_telegram_handler (fun b =>
    {| telegram_handler := v; health_server := health_server b;
       is_ready := is_ready b; config := config b;
       security_config := security_config b; rate_limiter := rate_limiter b;
       input_validator := input_validator b; start_time := start_time b |}).

Definition set_health_server (v : option AppRunner) : M unit :=
  setattr a_health_server (fun b =>
    {| telegram_handler := telegram_handler b; health_server := v;
       is_ready := is_ready b; config := config b;
       security_config := security_config b; rate_limiter := rate_limiter b;
       input_validator := input_validator b; start_time := start_time b |}).

Definition set_is_ready (v : bool) : M unit :=
  setattr (a_is_ready v) (fun b =>
    {| telegram_handler := telegram_handler b;
       health_server := health_server b;
       is_ready := v; config := config b;
       security_config := security_config b; rate_limiter := rate_limiter b;
       input_validator := input_validator b; start_time := start_time b |}).

Definition set_config (v : option Config) : M unit :=
  setattr a_config (fun b =>
    {| telegram_handler := telegram_handler b;
       health_server := health_server b;
       is_ready := is_ready b; config := v;
       security_config := security_config b; rate_limiter := rate_limiter b;
       input_validator := input_validator b; start_time := start_time b |}).

Definition set_security_config (v : option SecurityConfig) : M unit :=
  setattr a_security_config (fun b =>
    {| telegram_handler := telegram_handler b;
       health_server := health_server b;
       is_ready := is_ready b; config := config b;
       security_config := v; rate_limiter := rate_limiter b;
       input_validator := input_validator b; start_time := start_time b |}).

Definition set_rate_limiter (v : option RateLimiter) : M unit :=
  setattr a_rate_limiter (fun b =>
    {| telegram_handler := telegram_handler b;
       health_server := health_server b;
       is_ready := is_ready b; config := config b;
       security_config := security_config b; rate_limiter := v;
       input_validator := input_validator b; start_time := start_time b |}).

Definition set_input_validator (v : option InputValidator) : M unit :=
  setattr a_input_validator (fun b =>
    {| telegram_handler := telegram_handler b;
       health_server := health_server b;
       is_ready := is_ready b; config := config b;
       security_config := security_config b; rate_limiter := rate_limiter b;
       input_validator := v; start_time := start_time b |}).

Definition set_start_time (v : option float) : M unit :=
  setattr a_start_time (fun b =>
    {| telegram_handler := telegram_handler b;
       health_server := health_server b;
       is_ready := is_ready b; config := config b;
       security_config := security_config b; rate_limiter := rate_limiter b;
       input_validator := input_validator b; start_time := v |}).

(** [TradingBot.__init__] *)
Definition __init__ : M unit :=
  set_telegram_handler None;;
  set_health_server None;;
  set_is_ready false;;
  set_config None;;
  set_security_config None;;
  set_rate_limiter None;;
  set_input_validator None;;
  logger INFO "Trading Bot initializing...";;
  log_system_event "bot_initialization"
    "Trading bot initialization started".

(** [TradingBot()]: allocate an instance, then run [__init__] on it. *)
Definition new_TradingBot : M unit := put_bot blank;; __init__.

(** ** HTTP responses and requests *)

Variant body := Text (s : string) | Json (j : json).

(** [web.Response(text=.., status=..)] and [web.json_response(data,
    status=..)]; the latter defaults to status 200. *)
Record Response := { status : Z; payload : body }.

Definition web_Response (text : string) (st : Z) : Response :=
  {| status := st; payload := Text text |}.

Definition json_response (data : json) (st : Z) : Response :=
  {| status := st; payload := Json data |}.

(** What one request meets outside the program: the clock, the metrics
    collector and the cache statistics. *)
Record Request := {
  q_path : string;
  q_time : Res float;
  q_get_metrics_summary : Res json;
  q_get_cache_stats : Res json
}.

(** [TradingBot.health_check] *)
Definition health_check (request : Request) : M Response :=
  ret (web_Response "OK" 200).

(** [TradingBot.readiness_check] *)
Definition readiness_check (request : Request) : M Response :=
  self <- get_bot;;
  if is_ready self && truthy (telegram_handler self)
  then ret (web_Response "Ready" 200)
  else ret (web_Response "Not Ready" 503).

(** [{**d}] inside a dict display: [d] must be a mapping. *)
Definition as_mapping (v : json) : M (gmap string json) :=
  match v with
  | JDict d => ret d
  | _ =>
      raise (Exc (OtherError "TypeError")
                 ("'" +:+ type_name v +:+ "' object is not a mapping"))
  end.

(** [self.start_time]: the attribute exists once the caller has set it. *)
Definition get_start_time : M float :=
  self <- get_bot;;
  match start_time self with
  | Some t => ret t
  | None =>
      raise (Exc (OtherError "AttributeError")
               "'TradingBot' object has no attribute 'start_time'")
  end.

(** The [try] suite of [TradingBot.metrics_endpoint] (lines 93-113). *)
Definition metrics_try (request : Request) : M Response :=
  now <- extern time_time (q_time request);;
  t0 <- get_start_time;;
  self <- get_bot;;
  let bot_metrics : gmap string json :=
    <["telegram_handler_status" :=
        JStr (if truthy (telegram_handler self)
              then "active" else "inactive")]>
    (<["ready" := JBool (is_ready self)]>
    (<["uptime_seconds" := JFloat (PrimFloat.sub now t0)]> ∅)) in
  summary <- extern get_metrics_summary (q_get_metrics_summary request);;
  cache_stats <- extern get_cache_stats (q_get_cache_stats request);;
  prometheus_metrics <- as_mapping summary;;
  let combined_metrics : gmap string json :=
    <["cache_stats" := cache_stats]> (prometheus_metrics ∪ bot_metrics) in
  ret (json_response (JDict combined_metrics) 200).

(** The payload of the [except Exception] clause. *)
Definition metrics_unavailable : Response :=
  json_response (JDict {["error" := JStr "Metrics unavailable"]}) 500.

(** [TradingBot.metrics_endpoint] *)
Definition metrics_endpoint (request : Request) : M Response :=
  try_except
    (metrics_try request)
    (fun e =>
       if is_Exception e then
         Some (logger ERROR ("Error in metrics endpoint: " +:+ str e);;
               ret metrics_unavailable)
       else None).

(** The informational root route (a lambda in the source). *)
Definition root (request : Request) : M Response :=
  ret (web_Response "TradeAI Companion Bot is running!" 200).

Definition run_handler (h : route_handler) : Request -> M Response :=
  match h with
  | r_health_check => health_check
  | r_readiness_check => readiness_check
  | r_metrics_endpoint => metrics_endpoint
  | r_root => root
  end.

(** The four routes, as both [start_health_server] and [create_app]
    register them. *)
Definition routes (a : Application) : Application :=
  add_get "/" r_root
    (add_get "/metrics" r_metrics_endpoint
       (add_get "/ready" r_readiness_check
          (add_get "/health" r_health_check a))).

(** Routing of a GET request: the first route registered for the path. *)
Fixpoint resolve (a : Application) (path : string) : option route_handler :=
  match a with
  | [] => None
  | (p, h) :: a' => if String.eqb p path then Some h else resolve a' path
  end.

(** ** Signals *)

(** [signal_handler], the closure of [setup_signal_handlers]; [stop] is
    the outcome of [self.health_server.stop()] at this delivery. *)
Definition signal_handler (stop : Res unit) : M unit :=
  logger INFO "Received shutdown signal, stopping bot...";;
  self <- get_bot;;
  (if truthy (health_server self)
   then extern health_server_stop stop
   else ret tt);;
  sys_exit_ 0.

(** [TradingBot.setup_signal_handlers]: installs [signal_handler] for
    both signals.  Neither [main] nor [create_app] calls it. *)
Definition setup_signal_handlers : M unit :=
  extern (signal_signal SIGINT) (Ok tt);;
  extern (signal_signal SIGTERM) (Ok tt).


(** ** Start-up *)

Section Run.

Variable env : Env.

(** [TradingBot.validate_environment] *)
Definition validate_environment : M bool :=
  try_except
    (cfg <- extern validate_required_configs
              (e_validate_required_configs env);;
     set_config (Some cfg);;
     set_security_config (Some (security cfg));;
     rl <- extern new_RateLimiter (e_RateLimiter env);;
     set_rate_limiter (Some rl);;
     iv <- extern new_InputValidator (e_InputValidator env);;
     set_input_validator (Some iv);;
     logger INFO "Environment validation successful";;
     log_system_event "environment_validation"
       "Environment and security validation completed";;
     ret true)
    (fun e =>
       match e with
       | Exc ValueError _ | Exc SecurityError _ =>
           Some (logger ERROR
                   ("Environment validation failed: " +:+ str e);;
                 log_security_event "environment_validation_failed"
                   ("Validation failed: " +:+ str e) None;;
                 ret false)
       | _ => None
       end).

(** [int(os.environ.get('PORT', 8080))] *)
Definition get_port : M Z :=
  match e_environ_PORT env with
  | None => ret 8080
  | Some r => extern int_PORT r
  end.

(** [TradingBot.start_health_server] *)
Definition start_health_server : M AppRunner :=
  let app := routes [] in
  let runner := {| runner_app := app |} in
  extern runner_setup (e_runner_setup env);;
  port <- get_port;;
  extern (site_start "0.0.0.0" port) (e_site_start env);;
  logger INFO ("Health check server started on port " +:+ pretty port);;
  ret runner.

(** The [try] suite of [main] (lines 143-199). *)
Definition main_try : M unit :=
  logger INFO "Starting AI Trading Bot...";;
  log_system_event "bot_startup" "AI Trading Bot startup initiated";;
  ok <- validate_environment;;
  (if negb ok then
     logger ERROR "Environment validation failed, exiting...";;
     log_security_event "startup_failed"
       "Bot startup failed due to environment validation" None;;
     sys_exit_ 1
   else ret tt);;
  logger INFO "🚀 Starting performance optimizations...";;
  extern (create_task preload_task) (e_create_task env preload_task);;
  extern (start_metrics_server 9090) (e_start_metrics_server env);;
  extern setup_periodic_cleanup (e_setup_periodic_cleanup env);;
  runner <- start_health_server;;
  set_health_server (Some runner);;
  handler <- extern new_TelegramHandler (e_TelegramHandler env);;
  set_telegram_handler (Some handler);;
  logger INFO "TelegramHandler created successfully";;
  log_system_event "telegram_handler_initialized"
    "Telegram handler created with security middleware";;
  try_except
    (extern (wait_for preload_task 30%float) (e_wait_for env);;
     logger INFO "✅ Preloading completed successfully";;
     log_system_event "preloading_completed"
       "Performance preloading completed")
    (fun e =>
       match e with
       | Exc TimeoutError _ =>
           Some (logger WARNING "⚠️ Preloading timed out, continuing startup";;
                 log_system_event "preloading_timeout"
                   "Preloading timed out but continuing startup")
       | Exc _ _ =>
           Some (logger WARNING
                   ("⚠️ Preloading failed: " +:+ str e
                    +:+ ", continuing startup");;
                 log_system_event "preloading_failed"
                   ("Preloading failed: " +:+ str e))
       | _ => None
       end);;
  set_is_ready true;;
  extern (set_ready_status true) (e_set_ready_status env);;
  cache_stats <- extern get_cache_stats (e_get_cache_stats env);;
  pc <- lift (getitem cache_stats "performance_cache");;
  entries <- lift (getitem pc "entries");;
  logger INFO ("📊 Cache initialized: " +:+ e_format env entries
               +:+ " entries");;
  logger INFO "🤖 Trading bot started successfully with performance optimizations and security!";;
  logger INFO "Health server: http://localhost:8080/health";;
  logger INFO "Metrics server: http://localhost:9090";;
  logger INFO ("Connection pool: " +:+ e_format env (e_max_connections env)
               +:+ " max connections");;
  logger INFO "🔒 Security features: Rate limiting, Input validation, Secure logging, Session management";;
  logger INFO "Bot is ready to serve requests";;
  log_system_event "bot_startup_complete"
    "Trading bot startup completed successfully with all security features enabled";;
  extern handler_run (e_handler_run env).

(** The [except] clauses of [main] (lines 201-207). *)
Definition main_except (e : exn) : option (M unit) :=
  match e with
  | KeyboardInterrupt =>
      Some (logger INFO "Bot stopped by user";;
            log_system_event "bot_shutdown_user"
              "Bot stopped by user interrupt")
  | Exc _ _ =>
      Some (logger ERROR ("Bot crashed: " +:+ str e);;
            log_security_event "bot_crash"
              ("Bot crashed with error: " +:+ str e) (Some "critical");;
            sys_exit_ 1)
  | _ => None
  end.

(** The [finally] suite of [main] (lines 208-215). *)
Definition main_finally : M unit :=
  b <- get_bot;;
  (if truthy (health_server b) then
     extern runner_cleanup (e_runner_cleanup env);;
     logger INFO "Health server stopped";;
     log_system_event "health_server_stopped"
       "Health check server shutdown completed"
   else ret tt);;
  log_system_event "bot_shutdown_complete"
    "Trading bot shutdown completed".

(** [main] *)
Definition main : M unit :=
  new_TradingBot;;
  now <- extern time_time (Ok (e_time env));;
  set_start_time (Some now);;
  try_finally (try_except main_try main_except) main_finally.

(** [init_bot], the coroutine defined inside [create_app]. *)
Definition init_bot : M unit :=
  try_except
    (ok <- validate_environment;;
     if negb ok then
       logger ERROR "Environment validation failed"
     else
       extern (start_metrics_server 9090) (e_start_metrics_server env);;
       extern setup_periodic_cleanup (e_setup_periodic_cleanup env);;
       handler <- extern new_TelegramHandler (e_TelegramHandler env);;
       set_telegram_handler (Some handler);;
       set_is_ready true;;
       extern (set_ready_status true) (e_set_ready_status env);;
       logger INFO "Bot initialized successfully for web deployment";;
       extern (create_task handler_run_task)
         (e_create_task env handler_run_task))
    (fun e =>
       if is_Exception e then
         Some (logger ERROR ("Bot initialization failed: " +:+ str e))
       else None).

(** [create_app]: builds the application once and schedules [init_bot];
    later calls return the application already built. *)
Definition create_app : M (option Application) :=
  a <- get_app;;
  match a with
  | None =>
      put_app (Some []);;
      new_TradingBot;;
      now <- extern time_time (Ok (e_time env));;
      set_start_time (Some now);;
      put_app (Some (routes []));;
      extern (create_task init_bot_task) (e_create_task env init_bot_task)
  | Some _ => ret tt
  end;;
  get_app.

(** The deployment path: [create_app()], after which the event loop runs
    the task that this call scheduled, if it scheduled one. *)
Definition deploy : M (option Application) :=
  a0 <- get_app;;
  a <- create_app;;
  match a0 with
  | None => init_bot
  | Some _ => ret tt
  end;;
  ret a.

End Run.

(** The state in which the module's functions are first entered: no bot
    instance yet, [app = None], nothing logged. *)
Definition initial : St := {| bot := blank; app := None; trace := [] |}.

(** How the interpreter turns the outcome of the top-level call into the
    exit status of the process: 0 on return, the code of a [SystemExit],
    130 for an uncaught [KeyboardInterrupt], 1 for any other uncaught
    exception. *)
Definition exit_status {A} (r : Res A) : Z :=
  match r with
  | Ok _ => 0
  | Raise (SystemExit code) => code
  | Raise KeyboardInterrupt => 130
  | Raise _ => 1
  end.


(** ** The module body *)

(** [needle in hay] on strings. *)
Fixpoint contains (needle hay : string) : bool :=
  String.prefix needle hay
  || match hay with
     | EmptyString => false
     | String _ hay' => contains needle hay'
     end.

(** What the module body meets on the event loop.  A call on the loop
    either refuses, raising, or accepts; [asyncio.run] and
    [run_until_complete], once they accept, run [main] to its end and
    pass on its outcome.  These calls are not recorded in the trace, and a
    task that is left scheduled is not followed. *)
Record LoopEnv := {
  l_get_event_loop : Res unit;
  l_is_running : bool;
  l_create_task : Res unit;
  l_run_until_complete : Res unit;
  l_asyncio_run : Res unit;
  l_reschedule : Res unit
}.

Section Module.

Variable lenv : LoopEnv.
Variables env env' : Env.

(** The [__main__] block (lines 267-284). *)
Definition entry_point : M unit :=
  try_except
    (lift (l_get_event_loop lenv);;
     if l_is_running lenv then
       lift (l_create_task lenv);;
       lift (l_run_until_complete lenv);;
       main env
     else
       lift (l_asyncio_run lenv);;
       main env)
    (fun e =>
       match e with
       | Exc (OtherError "RuntimeError") _ =>
           Some
             (if contains "cannot be called from a running event loop"
                   (str e)
              then
                logger INFO "Already in event loop, creating task...";;
                lift (l_reschedule lenv)
              else raise e)
       | _ => None
       end).

(** The statements of the module after its definitions: the [__main__]
    block when the file is run as a script, then [app = create_app()]
    (line 287).  [env] is what [main] meets, [env'] what [create_app]
    meets afterwards. *)
Definition module_body (is_main : bool) : M unit :=
  (if is_main then entry_point else ret tt);;
  create_app env';;
  ret tt.

End Module.

(** * Vocabulary of the properties *)

(** ** Kinds of events *)

(** An HTTP server is being brought up: the metrics server, or the
    endpoint server's runner and site. *)
Definition starts_server (e : Event) : bool :=
  match e with
  | Call (start_metrics_server _) _ | Call runner_setup _
  | Call (site_start _ _) _ => true
  | _ => false
  end.

(** The handler is being created or run. *)
Definition starts_handler (e : Event) : bool :=
  match e with
  | Call new_TelegramHandler _ | Call handler_run _
  | Call (create_task handler_run_task) _ => true
  | _ => false
  end.

(** [sys.exit] is called. *)
Definition exits (e : Event) : bool :=
  match e with Call (sys_exit _) _ => true | _ => false end.

(** A concurrent activity is started: an asyncio task, or one of the
    background services. *)
Definition spawns (e : Event) : bool :=
  match e with
  | Call (create_task _) _ | Call (start_metrics_server _) _
  | Call setup_periodic_cleanup _ | Call runner_setup _
  | Call (site_start _ _) _ | Call handler_run _ => true
  | _ => false
  end.

(** The task that [create_app] schedules for the initialisation itself,
    and every other concurrent activity. *)
Definition spawns_init (e : Event) : bool :=
  match e with Call (create_task init_bot_task) _ => true | _ => false end.

Definition spawns_other (e : Event) : bool :=
  spawns e && negb (spawns_init e).

(** [validate_environment] has succeeded: its audit event is emitted only
    on the path that returns [True]. *)
Definition validated (e : Event) : bool :=
  match e with
  | SystemEvent "environment_validation" _ => true
  | _ => false
  end.

(** The endpoint server's site has started. *)
Definition server_started (e : Event) : bool :=
  match e with Call (site_start _ _) None => true | _ => false end.

(** The handler is being created / has been created. *)
Definition creates_handler (e : Event) : bool :=
  match e with Call new_TelegramHandler _ => true | _ => false end.

Definition handler_created (e : Event) : bool :=
  match e with Call new_TelegramHandler None => true | _ => false end.

(** A write to [is_ready], and a write of [True] to it. *)
Definition writes_ready (e : Event) : bool :=
  match e with Assign (a_is_ready _) => true | _ => false end.

Definition sets_ready (e : Event) : bool :=
  match e with Assign (a_is_ready true) => true | _ => false end.

Definition is_warning (e : Event) : bool :=
  match e with Log WARNING _ => true | _ => false end.

(** The bounded wait on the preload task, and its timing out. *)
Definition waits (e : Event) : bool :=
  match e with Call (wait_for _ _) _ => true | _ => false end.

Definition timed_out (e : Event) : bool :=
  match e with
  | Call (wait_for preload_task _) (Some (Exc TimeoutError _)) => true
  | _ => false
  end.

Definition spawns_preload (e : Event) : bool :=
  match e with Call (create_task preload_task) _ => true | _ => false end.

(** [health_server.stop()] in the signal handler; [health_server.cleanup()]
    in [main]; the final audit event. *)
Definition stops_server (e : Event) : bool :=
  match e with Call health_server_stop _ => true | _ => false end.

(** [signal.signal] installs a handler. *)
Definition installs_handler (e : Event) : bool :=
  match e with Call (signal_signal _) _ => true | _ => false end.

Definition final_audit : Event :=
  SystemEvent "bot_shutdown_complete" "Trading bot shutdown completed".

Definition is_final_audit (e : Event) : bool :=
  match e with SystemEvent "bot_shutdown_complete" _ => true | _ => false end.

(** A call was interrupted by [KeyboardInterrupt]; [handler.run()] failed
    with an exception below [Exception]. *)
Definition interrupted (e : Event) : bool :=
  match e with Call _ (Some KeyboardInterrupt) => true | _ => false end.

Definition handler_crashed (e : Event) : bool :=
  match e with Call handler_run (Some (Exc _ _)) => true | _ => false end.

(** A call returned, or failed with an exception below [Exception]. *)
Definition returns_or_fails {A} (r : Res A) : Prop :=
  match r with Ok _ => True | Raise e => is_Exception e = true end.

(** ** Shapes of traces *)

(** Every event satisfying [Q] has an event satisfying [P] before it. *)
Definition precedes (P Q : Event -> bool) (l : list Event) : Prop :=
  forall l1 e l2, l = l1 ++ e :: l2 -> Q e = true ->
    exists e', In e' l1 /\ P e' = true.

Fixpoint precedesb (P Q : Event -> bool) (seen : bool) (l : list Event)
  : bool :=
  match l with
  | [] => true
  | e :: l' =>
      (if Q e then seen else true) && precedesb P Q (seen || P e) l'
  end.

(** What follows the first event satisfying [p]. *)
Fixpoint following (p : Event -> bool) (l : list Event) : list Event :=
  match l with
  | [] => []
  | e :: l' => if p e then l' else following p l'
  end.

(** The state after the events [evs] have been recorded in order, the bot
    unchanged. *)
Definition record (evs : list Event) (s : St) : St :=
  {| bot := bot s; app := app s;
     trace := rev (map (fun e => (e, bot s)) evs) ++ trace s |}.

(** The flag is never cleared along a sequence of bot states: once it is
    true in one state it is true in every later one. *)
Definition never_cleared (l : list TradingBot) : Prop :=
  forall l1 b l2, l = l1 ++ b :: l2 -> is_ready b = true ->
    Forall (fun b' => is_ready b' = true) l2.

Fixpoint never_clearedb (seen : bool) (l : list TradingBot) : bool :=
  match l with
  | [] => true
  | b :: l' =>
      (if seen then is_ready b else true)
      && never_clearedb (seen || is_ready b) l'
  end.

(** ** The preload task under the bounded wait *)







(** ** Sample environments *)

(** Everything succeeds and [handler.run()] returns. *)
Definition env_ok : Env :=
  {| e_time := 0%float;
     e_validate_required_configs := Ok {| security := SecurityConfigObj |};
     e_RateLimiter := Ok RateLimiterObj;
     e_InputValidator := Ok InputValidatorObj;
     e_create_task := fun _ => Ok tt;
     e_start_metrics_server := Ok tt;
     e_setup_periodic_cleanup := Ok tt;
     e_runner_setup := Ok tt;
     e_environ_PORT := None;
     e_site_start := Ok tt;
     e_TelegramHandler := Ok TelegramHandlerObj;
     e_wait_for := Ok tt;
     e_set_ready_status := Ok tt;
     e_get_cache_stats :=
       Ok (JDict {["performance_cache" := JDict {["entries" := JInt 0]}]});
     e_max_connections := JInt 10;
     e_handler_run := Ok tt;
     e_runner_cleanup := Ok tt;
     e_format := fun _ => "" |}.

Definition with_validate (r : Res Config) (env : Env) : Env :=
  {| e_time := e_time env;
     e_validate_required_configs := r;
     e_RateLimiter := e_RateLimiter env;
     e_InputValidator := e_InputValidator env;
     e_create_task := e_create_task env;
     e_start_metrics_server := e_start_metrics_server env;
     e_setup_periodic_cleanup := e_setup_periodic_cleanup env;
     e_runner_setup := e_runner_setup env;
     e_environ_PORT := e_environ_PORT env;
     e_site_start := e_site_start env;
     e_TelegramHandler := e_TelegramHandler env;
     e_wait_for := e_wait_for env;
     e_set_ready_status := e_set_ready_status env;
     e_get_cache_stats := e_get_cache_stats env;
     e_max_connections := e_max_connections env;
     e_handler_run := e_handler_run env;
     e_runner_cleanup := e_runner_cleanup env;
     e_format := e_format env |}.

Definition with_wait_for (r : Res unit) (env : Env) : Env :=
  {| e_time := e_time env;
     e_validate_required_configs := e_validate_required_configs env;
     e_RateLimiter := e_RateLimiter env;
     e_InputValidator := e_InputValidator env;
     e_create_task := e_create_task env;
     e_start_metrics_server := e_start_metrics_server env;
     e_setup_periodic_cleanup := e_setup_periodic_cleanup env;
     e_runner_setup := e_runner_setup env;
     e_environ_PORT := e_environ_PORT env;
     e_site_start := e_site_start env;
     e_TelegramHandler := e_TelegramHandler env;
     e_wait_for := r;
     e_set_ready_status := e_set_ready_status env;
     e_get_cache_stats := e_get_cache_stats env;
     e_max_connections := e_max_connections env;
     e_handler_run := e_handler_run env;
     e_runner_cleanup := e_runner_cleanup env;
     e_format := e_format env |}.

Definition with_handler_run (r : Res unit) (env : Env) : Env :=
  {| e_time := e_time env;
     e_validate_required_configs := e_validate_required_configs env;
     e_RateLimiter := e_RateLimiter env;
     e_InputValidator := e_InputValidator env;
     e_create_task := e_create_task env;
     e_start_metrics_server := e_start_metrics_server env;
     e_setup_periodic_cleanup := e_setup_periodic_cleanup env;
     e_runner_setup := e_runner_setup env;
     e_environ_PORT := e_environ_PORT env;
     e_site_start := e_site_start env;
     e_TelegramHandler := e_TelegramHandler env;
     e_wait_for := e_wait_for env;
     e_set_ready_status := e_set_ready_status env;
     e_get_cache_stats := e_get_cache_stats env;
     e_max_connections := e_max_connections env;
     e_handler_run := r;
     e_runner_cleanup := e_runner_cleanup env;
     e_format := e_format env |}.

Definition with_runner_cleanup (r : Res unit) (env : Env) : Env :=
  {| e_time := e_time env;
     e_validate_required_configs := e_validate_required_configs env;
     e_RateLimiter := e_RateLimiter env;
     e_InputValidator := e_InputValidator env;
     e_create_task := e_create_task env;
     e_start_metrics_server := e_start_metrics_server env;
     e_setup_periodic_cleanup := e_setup_periodic_cleanup env;
     e_runner_setup := e_runner_setup env;
     e_environ_PORT := e_environ_PORT env;
     e_site_start := e_site_start env;
     e_TelegramHandler := e_TelegramHandler env;
     e_wait_for := e_wait_for env;
     e_set_ready_status := e_set_ready_status env;
     e_get_cache_stats := e_get_cache_stats env;
     e_max_connections := e_max_connections env;
     e_handler_run := e_handler_run env;
     e_runner_cleanup := r;
     e_format := e_format env |}.

(** A required credential is missing: the configuration collaborator
    raises [ValueError]. *)
Definition env_missing_credential : Env :=
  with_validate (Raise (Exc ValueError "TELEGRAM_API_TOKEN is required"))
    env_ok.


(** The handler's run loop crashes after start-up. *)
Definition env_crash : Env :=
  with_handler_run (Raise (Exc (OtherError "NetworkError") "connection lost"))
    env_ok.

(** The user interrupts the running bot. *)
Definition env_interrupt : Env :=
  with_handler_run (Raise KeyboardInterrupt) env_ok.

(** The user interrupts the running bot and the server teardown fails. *)
Definition env_teardown_fails : Env :=
  with_runner_cleanup
    (Raise (Exc (OtherError "RuntimeError") "teardown failed"))
    env_interrupt.

(** A bot that is serving: server up, handler created, ready. *)
Definition serving : St :=
  {| bot := {| telegram_handler := Some TelegramHandlerObj;
               health_server := Some {| runner_app := routes [] |};
               is_ready := true;
               config := Some {| security := SecurityConfigObj |};
               security_config := Some SecurityConfigObj;
               rate_limiter := Some RateLimiterObj;
               input_validator := Some InputValidatorObj;
               start_time := Some 0%float |};
     app := None;
     trace := [] |}.

(** A request during which the user interrupts the process while the
    cache statistics are collected. *)
Definition interrupted_request : Request :=
  {| q_path := "/metrics";
     q_time := Ok 1%float;
     q_get_metrics_summary := Ok (JDict ∅);
     q_get_cache_stats := Raise KeyboardInterrupt |}.

(** A request during which the cache statistics fail. *)
Definition failing_request : Request :=
  {| q_path := "/metrics";
     q_time := Ok 1%float;
     q_get_metrics_summary := Ok (JDict ∅);
     q_get_cache_stats := Raise (Exc (OtherError "RuntimeError") "no cache") |}.

(** * Vocabulary of the further properties *)

(** The events recorded between a state [s] and a later state [s']. *)
Definition since (s s' : St) : list Event :=
  drop (length (trace s)) (timeline s').

(** The first of the three validation calls that raises, if one does. *)
Definition first_failure (env : Env) : option exn :=
  match e_validate_required_configs env with
  | Raise e => Some e
  | Ok _ =>
      match e_RateLimiter env with
      | Raise e => Some e
      | Ok _ =>
          match e_InputValidator env with
          | Raise e => Some e
          | Ok _ => None
          end
      end
  end.

(** The classes named by [except (ValueError, SecurityError)]. *)
Definition is_validation_error (e : exn) : bool :=
  match e with
  | Exc ValueError _ | Exc SecurityError _ => true
  | _ => false
  end.

(** Audit records of the secure logger. *)
Definition is_audit (e : Event) : bool :=
  match e with
  | SystemEvent _ _ | SecurityEvent _ _ _ => true
  | _ => false
  end.

Definition is_security_event (e : Event) : bool :=
  match e with SecurityEvent _ _ _ => true | _ => false end.

Definition is_error_log (e : Event) : bool :=
  match e with Log ERROR _ => true | _ => false end.

(** The port the endpoint server binds: [PORT] when it is set and a
    numeral, the default 8080 when it is unset. *)
Definition port_of (env : Env) : Z :=
  match e_environ_PORT env with
  | Some (Ok n) => n
  | _ => 8080
  end.

Definition site_starts (e : Event) : bool :=
  match e with Call (site_start _ _) _ => true | _ => false end.

Definition sets_up_runner (e : Event) : bool :=
  match e with Call runner_setup None => true | _ => false end.

(** The server teardown of [main]; awaiting [handler.run()]; scheduling it
    as a task; the audit event that closes the start-up. *)
Definition tears_down (e : Event) : bool :=
  match e with Call runner_cleanup _ => true | _ => false end.

Definition runs_handler (e : Event) : bool :=
  match e with Call handler_run _ => true | _ => false end.

Definition spawns_handler_run (e : Event) : bool :=
  match e with Call (create_task handler_run_task) _ => true | _ => false end.

Definition startup_complete (e : Event) : bool :=
  match e with SystemEvent "bot_startup_complete" _ => true | _ => false end.

(** A bot whose flag is set has its handler and its server; the same
    without the server, for the [create_app] path. *)
Definition ready_is_backed (b : TradingBot) : bool :=
  implb (is_ready b)
    (truthy (telegram_handler b) && truthy (health_server b)).

Definition ready_has_handler (b : TradingBot) : bool :=
  implb (is_ready b) (truthy (telegram_handler b)).

(** The external calls of a trace, and the call site of a call: its
    function, and for [create_task] also the task. *)
Fixpoint calls (l : list Event) : list call :=
  match l with
  | [] => []
  | Call c _ :: l' => c :: calls l'
  | _ :: l' => calls l'
  end.

Definition call_site (c : call) : nat :=
  match c with
  | validate_required_configs => 0
  | new_RateLimiter => 1
  | new_InputValidator => 2
  | create_task preload_task => 3
  | create_task init_bot_task => 4
  | create_task handler_run_task => 5
  | start_metrics_server _ => 6
  | setup_periodic_cleanup => 7
  | runner_setup => 8
  | int_PORT => 9
  | site_start _ _ => 10
  | new_TelegramHandler => 11
  | wait_for _ _ => 12
  | set_ready_status _ => 13
  | get_cache_stats => 14
  | get_metrics_summary => 15
  | time_time => 16
  | handler_run => 17
  | runner_cleanup => 18
  | health_server_stop => 19
  | signal_signal _ => 20
  | sys_exit _ => 21
  end%nat.

Fixpoint distinct (l : list nat) : bool :=
  match l with
  | [] => true
  | n :: l' => negb (existsb (Nat.eqb n) l') && distinct l'
  end.

Definition is_exit_1 (e : Event) : bool :=
  match e with Call (sys_exit 1) (Some (SystemExit 1)) => true | _ => false end.

(** A call returned. *)
Definition returned {A} (r : Res A) : Prop :=
  match r with Ok _ => True | Raise _ => False end.

(** [PORT] is unset or a numeral. *)
Definition port_parses (env : Env) : Prop :=
  match e_environ_PORT env with
  | Some (Raise _) => False
  | _ => True
  end.

(** The cache statistics have the entry that [main] logs. *)
Definition cache_stats_usable (env : Env) : Prop :=
  match e_get_cache_stats env with
  | Ok cache_stats =>
      match getitem cache_stats "performance_cache" with
      | Ok pc => returned (getitem pc "entries")
      | Raise _ => False
      end
  | Raise _ => False
  end.

(** The bot as [__init__] leaves it, with the start time that both entry
    points assign next. *)
Definition fresh (t : float) : TradingBot :=
  {| telegram_handler := None; health_server := None; is_ready := false;
     config := None; security_config := None; rate_limiter := None;
     input_validator := None; start_time := Some t |}.

(** A request that meets no failure outside the program. *)
Definition plain_request : Request :=
  {| q_path := "/metrics";
     q_time := Ok 1%float;
     q_get_metrics_summary := Ok (JDict ∅);
     q_get_cache_stats := Ok (JDict ∅) |}.

(** [PORT] is set to something that is not a numeral. *)
Definition env_bad_port : Env :=
  {| e_time := e_time env_ok;
     e_validate_required_configs := e_validate_required_configs env_ok;
     e_RateLimiter := e_RateLimiter env_ok;
     e_InputValidator := e_InputValidator env_ok;
     e_create_task := e_create_task env_ok;
     e_start_metrics_server := e_start_metrics_server env_ok;
     e_setup_periodic_cleanup := e_setup_periodic_cleanup env_ok;
     e_runner_setup := e_runner_setup env_ok;
     e_environ_PORT :=
       Some (Raise (Exc ValueError
                      "invalid literal for int() with base 10: 'http'"));
     e_site_start := e_site_start env_ok;
     e_TelegramHandler := e_TelegramHandler env_ok;
     e_wait_for := e_wait_for env_ok;
     e_set_ready_status := e_set_ready_status env_ok;
     e_get_cache_stats := e_get_cache_stats env_ok;
     e_max_connections := e_max_connections env_ok;
     e_handler_run := e_handler_run env_ok;
     e_runner_cleanup := e_runner_cleanup env_ok;
     e_format := e_format env_ok |}.

(** The preload task fails, and the user later interrupts the bot. *)
Definition env_preload_fails : Env :=
  with_wait_for (Raise (Exc (OtherError "OSError") "disk full"))
    env_interrupt.

(** The user interrupts the bot while it waits for the preloader. *)
Definition env_interrupted_wait : Env :=
  with_wait_for (Raise KeyboardInterrupt) env_ok.

(** The script is started with no event loop running, and [asyncio.run]
    accepts [main]. *)
Definition loop_idle : LoopEnv :=
  {| l_get_event_loop := Ok tt;
     l_is_running := false;
     l_create_task := Ok tt;
     l_run_until_complete := Ok tt;
     l_asyncio_run := Ok tt;
     l_reschedule := Ok tt |}.

Definition runs_main_directly (lenv : LoopEnv) : Prop :=
  l_get_event_loop lenv = Ok tt /\ l_is_running lenv = false
  /\ l_asyncio_run lenv = Ok tt.

(** What [create_app] meets at line 287 of a script whose event loop has
    ended: [asyncio.create_task] finds no running loop. *)
Definition env_no_loop : Env :=
  {| e_time := e_time env_ok;
     e_validate_required_configs := e_validate_required_configs env_ok;
     e_RateLimiter := e_RateLimiter env_ok;
     e_InputValidator := e_InputValidator env_ok;
     e_create_task :=
       fun _ => Raise (Exc (OtherError "RuntimeError")
                         "no running event loop");
     e_start_metrics_server := e_start_metrics_server env_ok;
     e_setup_periodic_cleanup := e_setup_periodic_cleanup env_ok;
     e_runner_setup := e_runner_setup env_ok;
     e_environ_PORT := e_environ_PORT env_ok;
     e_site_start := e_site_start env_ok;
     e_TelegramHandler := e_TelegramHandler env_ok;
     e_wait_for := e_wait_for env_ok;
     e_set_ready_status := e_set_ready_status env_ok;
     e_get_cache_stats := e_get_cache_stats env_ok;
     e_max_connections := e_max_connections env_ok;
     e_handler_run := e_handler_run env_ok;
     e_runner_cleanup := e_runner_cleanup env_ok;
     e_format := e_format env_ok |}.


(** ** Running the program symbolically *)

(** Keeps a property apart from the run it is about while the run is
    unfolded. *)
Definition holds {A} (P : A -> Prop) (x : A) : Prop := P x.

(** Unfolds the program and the monad in the conclusion.  An oracle whose
    outcome is still unknown leaves a stuck [match]. *)
Ltac run :=
  cbv beta iota zeta delta
    [main main_try main_except main_finally validate_environment
     start_health_server get_port init_bot create_app deploy initial
     new_TradingBot __init__ blank signal_handler
     set_telegram_handler set_health_server set_is_ready set_config
     set_security_config set_rate_limiter set_input_validator set_start_time
     setattr sys_exit_ log_security_event log_system_event logger extern
     raised put_app get_app put_bot get_bot emit try_finally try_except
     raise bind ret lift truthy timeline snapshots
     bot app trace telegram_handler health_server is_ready config
     security_config rate_limiter input_validator start_time security
     fst snd negb andb orb is_Exception exit_status
     List.rev List.map List.app].

(** Splits on the kind of every exception the run is stuck on. *)
Ltac settle_exn :=
  repeat match goal with
    | |- context [match ?e with
                  | Exc _ _ => _ | KeyboardInterrupt => _
                  | CancelledError => _ | SystemExit _ => _ end] =>
        is_var e; destruct e; run
    | |- context [match ?c with
                  | ValueError => _ | SecurityError => _ | TimeoutError => _
                  | OtherError _ => _
                  end] =>
        is_var c; destruct c; run
    end.

(** Splits on every oracle outcome the run is stuck on.  For goals in
    which the rest of the run is fixed up to the outcome of the server
    teardown. *)
Ltac settle env :=
  settle_exn;
  repeat match goal with
    | |- context [match e_runner_cleanup env with
                  | Ok _ => _ | Raise _ => _ end] =>
        destruct (e_runner_cleanup env); run
    end.

(** One oracle, in program order: split on its outcome and on the kind of
    the exception.  A branch that no longer mentions [last], the final
    oracle of the run, has finished: it is settled and handed to [fin]. *)
Ltac visit r last env fin :=
  destruct r; run; settle_exn;
  lazymatch goal with
  | |- context [last] => idtac
  | _ => settle env; fin
  end.

(** The subscripts [cache_stats['performance_cache']['entries']]. *)
Ltac visit_getitem last env fin :=
  match goal with
  | |- context [getitem ?a ?k] => visit (getitem a k) last env fin
  end.

(** All runs of [main] from the initial state.  The conclusion may
    mention [main env initial] and [validate_environment env initial];
    every run ends in a leaf where both are values, handed to [fin]. *)
Ltac main_runs env fin :=
  let last := constr:(e_handler_run env) in
  pattern (main env initial);
  lazymatch goal with |- ?P ?x => change (holds P x) end;
  let fin' := (unfold holds; cbv beta iota delta [fst snd]; fin) in
  run;
  visit (e_validate_required_configs env) last env fin';
  visit (e_RateLimiter env) last env fin';
  visit (e_InputValidator env) last env fin';
  visit (e_create_task env preload_task) last env fin';
  visit (e_start_metrics_server env) last env fin';
  visit (e_setup_periodic_cleanup env) last env fin';
  visit (e_runner_setup env) last env fin';
  destruct (e_environ_PORT env) as [port|]; run;
  [ visit port last env fin' | ];
  visit (e_site_start env) last env fin';
  visit (e_TelegramHandler env) last env fin';
  visit (e_wait_for env) last env fin';
  visit (e_set_ready_status env) last env fin';
  visit (e_get_cache_stats env) last env fin';
  visit_getitem last env fin';
  visit_getitem last env fin';
  destruct (e_handler_run env); run; settle env; fin'.

(** All runs of [create_app] followed by the scheduled [init_bot]. *)
Ltac deploy_runs env fin :=
  let last := constr:(e_create_task env handler_run_task) in
  pattern (deploy env initial);
  lazymatch goal with |- ?P ?x => change (holds P x) end;
  let fin' := (unfold holds; cbv beta iota delta [fst snd]; fin) in
  run;
  visit (e_create_task env init_bot_task) last env fin';
  visit (e_validate_required_configs env) last env fin';
  visit (e_RateLimiter env) last env fin';
  visit (e_InputValidator env) last env fin';
  visit (e_start_metrics_server env) last env fin';
  visit (e_setup_periodic_cleanup env) last env fin';
  visit (e_TelegramHandler env) last env fin';
  visit (e_set_ready_status env) last env fin';
  destruct (e_create_task env handler_run_task); run; settle env; fin'.

(** Evaluates the vocabulary of the properties on a finished run. *)
Ltac check :=
  cbv beta iota zeta delta
    [starts_server starts_handler exits spawns spawns_init spawns_other
     validated server_started
     creates_handler handler_created writes_ready sets_ready is_warning
     waits timed_out spawns_preload stops_server installs_handler
     is_final_audit interrupted
     handler_crashed precedesb following never_clearedb
     final_audit exit_status
     bot app trace telegram_handler health_server is_ready
     fst snd negb andb orb
     List.existsb List.forallb List.filter List.length last
     List.firstn take List.map List.rev List.app].

(** Membership in a concrete list. *)
Ltac find_in := vm_compute; repeat (first [left; reflexivity | right]).

(** Evaluates the vocabulary of the further properties on a finished
    run. *)
Ltac check2 :=
  cbv beta iota zeta delta
    [starts_server starts_handler exits spawns spawns_init spawns_other
     validated server_started creates_handler handler_created writes_ready
     sets_ready is_warning waits timed_out spawns_preload stops_server
     installs_handler is_final_audit interrupted handler_crashed
     precedesb following never_clearedb final_audit exit_status
     is_audit is_security_event is_error_log site_starts sets_up_runner
     tears_down runs_handler spawns_handler_run startup_complete
     ready_is_backed ready_has_handler calls call_site distinct is_exit_1
     truthy implb Nat.eqb
     bot app trace telegram_handler health_server is_ready
     fst snd negb andb orb
     List.existsb List.forallb List.filter List.length last
     List.firstn take List.map List.rev List.app].
(** * Properties *)

(** ** The probes *)

(** C8: the liveness endpoint answers 200 "OK" to every request in every
    state of the bot, leaves the state alone, and its answer is the same
    whatever the readiness flag, the handler or anything else in the state
    is; it is the handler routed at [/health]. *)
Theorem health_check_always_ok (request : Request) (s s' : St) :
  health_check request s = (Ok {| status := 200; payload := Text "OK" |}, s)
  /\ fst (health_check request s) = fst (health_check request s')
  /\ resolve (routes []) "/health" = Some r_health_check.
Proof. repeat split. Qed.

(** C1: the readiness endpoint answers 200 "Ready" exactly when the
    readiness flag is true and a handler object is present, and answers
    503 "Not Ready" in every other state. *)
Theorem readiness_check_iff (request : Request) (s : St) :
  let ready := is_ready (bot s) = true /\ telegram_handler (bot s) <> None in
  let answer := fst (readiness_check request s) in
  (answer = Ok {| status := 200; payload := Text "Ready" |} <-> ready)
  /\ (ready \/ answer = Ok {| status := 503; payload := Text "Not Ready" |})
  /\ snd (readiness_check request s) = s
  /\ resolve (routes []) "/ready" = Some r_readiness_check.
Proof.
  unfold readiness_check, bind, get_bot, ret; simpl.
  destruct (is_ready (bot s)), (telegram_handler (bot s)); simpl;
    (split; [split; [intros H | intros [H1 H2]] | split; [| split]]);
    try reflexivity; try discriminate; try congruence;
    try (split; congruence); try (right; reflexivity);
    try (left; split; congruence).
Qed.


(** * Properties of the start-up sequence *)

(** ** Validation failure *)

(** C2 (counterexample): with a missing credential validation fails, yet
    on the [create_app] path the process does not exit: the application
    with its routes has been built, [init_bot] returns normally and
    [sys.exit] is never called. *)
Lemma create_app_survives_validation_failure :
  fst (validate_environment env_missing_credential initial) = Ok false
  /\ fst (deploy env_missing_credential initial) = Ok (Some (routes []))
  /\ exit_status (fst (deploy env_missing_credential initial)) = 0
  /\ existsb exits (timeline (snd (deploy env_missing_credential initial)))
     = false.
Proof. vm_compute. repeat split. Qed.

(** C2: when validation fails, [main] starts no server and no handler and
    exits with status 1; [init_bot], once scheduled by [create_app], logs
    the failure and returns: no handler is created, the readiness flag
    stays false, [sys.exit] is not called, and the application built
    before validation stays in place. *)
Theorem validation_failure (env : Env) :
  fst (validate_environment env initial) = Ok false ->
  (fst (main env initial) = Raise (SystemExit 1)
   /\ exit_status (fst (main env initial)) = 1
   /\ Forall (fun e => starts_server e = false /\ starts_handler e = false)
        (timeline (snd (main env initial))))
  /\ (e_create_task env init_bot_task = Ok tt ->
      fst (deploy env initial) = Ok (Some (routes []))
      /\ Forall (fun e => starts_handler e = false /\ exits e = false)
           (timeline (snd (deploy env initial)))
      /\ is_ready (bot (snd (deploy env initial))) = false
      /\ telegram_handler (bot (snd (deploy env initial))) = None
      /\ app (snd (deploy env initial)) = Some (routes [])).
Proof.
  intros H; split.
  - revert H.
    main_runs env ltac:(intros H; try discriminate H;
                        repeat split; repeat constructor).
  - intros Hc. revert H. run. rewrite Hc. run.
    destruct (e_validate_required_configs env); run; settle_exn;
      [destruct (e_RateLimiter env); run; settle_exn;
       [destruct (e_InputValidator env); run; settle_exn|..]|..];
      intros H; try discriminate H; repeat split; repeat constructor.
Qed.

Lemma validation_failure_witness :
  fst (main env_missing_credential initial) = Raise (SystemExit 1)
  /\ fst (deploy env_missing_credential initial) = Ok (Some (routes [])).
Proof.
  destruct (validation_failure env_missing_credential) as [Hm Hd];
    [reflexivity|].
  split; [apply Hm | apply Hd; reflexivity].
Defined.
(** ** The bounded wait on the preloader *)

Lemma Exists_existsb (p : Event -> bool) (l : list Event) :
  Exists (fun e => p e = true) l -> existsb p l = true.
Proof.
  intros H. apply List.Exists_exists in H as (e & Hin & Hp).
  apply existsb_exists. exists e. split; assumption.
Qed.





(** * Shutdown *)

(** ** Termination signals *)







(** The handler is defined but not installed: no run of [main] and no run
    of the [create_app] path calls [signal.signal]. *)
Remark signal_handler_is_never_installed (env : Env) :
  existsb installs_handler (timeline (snd (main env initial))) = false
  /\ existsb installs_handler (timeline (snd (deploy env initial))) = false.
Proof.
  split.
  - main_runs env ltac:(check; reflexivity).
  - deploy_runs env ltac:(check; reflexivity).
Qed.

(** ** The cleanup in [finally] *)

(** C5 (counterexample): the user interrupts the bot and the server
    teardown raises.  The exception leaves [main]; the steps after the
    teardown, and the final audit event, do not run. *)
Lemma teardown_failure_skips_final_audit :
  fst (main env_teardown_fails initial)
  = Raise (Exc (OtherError "RuntimeError") "teardown failed")
  /\ existsb is_final_audit (timeline (snd (main env_teardown_fails initial)))
     = false
  /\ last (timeline (snd (main env_teardown_fails initial)))
     = Some (Call runner_cleanup
               (Some (Exc (OtherError "RuntimeError") "teardown failed"))).
Proof. vm_compute. repeat split. Qed.

(** C5: the [finally] suite is one sequence.  With no server it emits the
    final audit event; with a server whose teardown returns it logs the
    stop, emits its audit event and then the final audit event; when the
    teardown raises, the exception propagates and nothing after it runs.
    So every run of [main] ends with the final audit event, unless the
    teardown raised: then the failed teardown is the last event and its
    exception is the outcome of [main]. *)
Theorem finally_is_one_sequence (env : Env) (s : St) :
  main_finally env s
  = match health_server (bot s), e_runner_cleanup env with
    | None, _ => (Ok tt, record [final_audit] s)
    | Some _, Ok _ =>
        (Ok tt,
         record [Call runner_cleanup None;
                 Log INFO "Health server stopped";
                 SystemEvent "health_server_stopped"
                   "Health check server shutdown completed";
                 final_audit] s)
    | Some _, Raise e => (Raise e, record [Call runner_cleanup (Some e)] s)
    end
  /\ (last (timeline (snd (main env initial))) = Some final_audit
      \/ exists e,
           last (timeline (snd (main env initial)))
           = Some (Call runner_cleanup (Some e))
           /\ fst (main env initial) = Raise e).
Proof.
  split.
  - destruct s as [b a tr].
    unfold main_finally, record, bind, get_bot, extern, emit, logger,
      log_system_event, raise, ret; simpl.
    destruct (health_server b), (e_runner_cleanup env) as [[]|e];
      reflexivity.
  - main_runs env ltac:(check;
      first [left; reflexivity | right; eexists; split; reflexivity]).
Qed.

(** * The metrics probe *)

(** The payload of a successful aggregation holds the three bot metrics
    and the cache statistics. *)
Lemma combined_metrics_keys (prometheus_metrics : gmap string json)
  (uptime ready handler_status cache_stats : json) :
  let d : gmap string json :=
    <["cache_stats" := cache_stats]>
      (prometheus_metrics
       ∪ <["telegram_handler_status" := handler_status]>
           (<["ready" := ready]> (<["uptime_seconds" := uptime]> ∅))) in
  is_Some (d !! "uptime_seconds") /\ is_Some (d !! "ready")
  /\ is_Some (d !! "telegram_handler_status")
  /\ d !! "cache_stats" = Some cache_stats.
Proof.
  intros d. subst d. repeat split.
  - rewrite lookup_insert_ne by done. apply lookup_union_is_Some. right.
    rewrite !lookup_insert_ne by done. rewrite lookup_insert_eq. eauto.
  - rewrite lookup_insert_ne by done. apply lookup_union_is_Some. right.
    rewrite lookup_insert_ne by done. rewrite lookup_insert_eq. eauto.
  - rewrite lookup_insert_ne by done. apply lookup_union_is_Some. right.
    rewrite lookup_insert_eq. eauto.
  - apply lookup_insert_eq.
Qed.

(** What a successful aggregation returns. *)
Lemma metrics_try_ok (request : Request) (s : St) (resp : Response) :
  fst (metrics_try request s) = Ok resp ->
  status resp = 200
  /\ exists d, payload resp = Json (JDict d)
       /\ is_Some (d !! "uptime_seconds") /\ is_Some (d !! "ready")
       /\ is_Some (d !! "telegram_handler_status")
       /\ is_Some (d !! "cache_stats").
Proof.
  unfold metrics_try, get_start_time, as_mapping, bind, extern, emit,
    get_bot, raise, ret; simpl.
  destruct (q_time request) as [now|e]; simpl; [|discriminate].
  destruct (start_time (bot s)) as [t0|]; simpl; [|discriminate].
  destruct (q_get_metrics_summary request) as [summary|e]; simpl;
    [|discriminate].
  destruct (q_get_cache_stats request) as [cache_stats|e]; simpl;
    [|discriminate].
  destruct summary as [| | | | |prometheus_metrics]; simpl;
    try discriminate.
  intros [= <-]; simpl. split; [reflexivity|].
  eexists; split; [reflexivity|].
  pose proof (combined_metrics_keys prometheus_metrics
                (JFloat (PrimFloat.sub now t0))
                (JBool (is_ready (bot s)))
                (JStr (if truthy (telegram_handler (bot s))
                       then "active" else "inactive"))
                cache_stats) as (H1 & H2 & H3 & H4).
  repeat split; try assumption. rewrite H4. eauto.
Qed.

(** C6 (counterexample): an exception that does not derive from
    [Exception], raised while the payload is aggregated, leaves the
    endpoint; no 500 response is produced. *)
Lemma metrics_endpoint_lets_interrupt_through :
  fst (metrics_try interrupted_request serving) = Raise KeyboardInterrupt
  /\ fst (metrics_endpoint interrupted_request serving)
     = Raise KeyboardInterrupt.
Proof. split; reflexivity. Qed.

(** C6: when the aggregation raises an exception that derives from
    [Exception], the endpoint answers 500 with the generic error payload
    and raises nothing; an exception outside [Exception] propagates; when
    the aggregation succeeds, the endpoint answers 200 with a JSON object
    that holds [uptime_seconds], [ready], [telegram_handler_status] and
    [cache_stats]. *)
Theorem metrics_endpoint_outcomes (request : Request) (s : St) :
  (forall e, fst (metrics_try request s) = Raise e ->
     is_Exception e = true ->
     fst (metrics_endpoint request s) = Ok metrics_unavailable
     /\ status metrics_unavailable = 500
     /\ payload metrics_unavailable
        = Json (JDict {["error" := JStr "Metrics unavailable"]}))
  /\ (forall e, fst (metrics_try request s) = Raise e ->
        is_Exception e = false ->
        fst (metrics_endpoint request s) = Raise e)
  /\ (forall resp, fst (metrics_try request s) = Ok resp ->
        fst (metrics_endpoint request s) = Ok resp
        /\ status resp = 200
        /\ exists d, payload resp = Json (JDict d)
             /\ is_Some (d !! "uptime_seconds") /\ is_Some (d !! "ready")
             /\ is_Some (d !! "telegram_handler_status")
             /\ is_Some (d !! "cache_stats")).
Proof.
  unfold metrics_endpoint, try_except.
  pose proof (metrics_try_ok request s) as Hok.
  destruct (metrics_try request s) as [[resp|e] s']; simpl in *.
  - split; [|split].
    + intros e [=].
    + intros e [=].
    + intros resp' [= <-]. split; [reflexivity | apply Hok; reflexivity].
  - split; [|split].
    + intros e' [= <-] He. rewrite He. repeat split.
    + intros e' [= <-] He. rewrite He. reflexivity.
    + intros resp [=].
Qed.

Lemma metrics_endpoint_outcomes_witness :
  fst (metrics_endpoint failing_request serving) = Ok metrics_unavailable.
Proof.
  destruct (metrics_endpoint_outcomes failing_request serving) as [H _].
  apply (H (Exc (OtherError "RuntimeError") "no cache")); reflexivity.
Defined.

(** * Ordering of the start-up *)

(** The boolean check decides the ordering property. *)
Lemma precedesb_seen (P Q : Event -> bool) (l : list Event) :
  forall seen,
    precedesb P Q seen l = true <->
    (forall l1 e l2, l = l1 ++ e :: l2 -> Q e = true ->
       seen = true \/ exists e', In e' l1 /\ P e' = true).
Proof.
  induction l as [|e0 l' IH]; intros seen; simpl.
  - split; [|reflexivity]. intros _ [|e1 l1] e l2 H; discriminate H.
  - rewrite andb_true_iff, IH. split.
    + intros [Hq Hrest] [|e1 l1] e l2 Heq Qe; simpl in Heq.
      * injection Heq as -> ->. rewrite Qe in Hq. left; exact Hq.
      * injection Heq as -> ->.
        destruct (Hrest l1 e l2 eq_refl Qe) as [Hs|(e' & Hin & Pe')].
        -- apply orb_true_iff in Hs as [Hs|Hs]; [left; exact Hs|].
           right. exists e1. split; [left; reflexivity | exact Hs].
        -- right. exists e'. split; [right; exact Hin | exact Pe'].
    + intros H. split.
      * destruct (Q e0) eqn:Qe; [|reflexivity].
        destruct (H [] e0 l' eq_refl Qe) as [Hs|(e' & [] & _)]. exact Hs.
      * intros l1 e l2 -> Qe.
        destruct (H (e0 :: l1) e l2 eq_refl Qe)
          as [Hs|(e' & [<-|Hin] & Pe')].
        -- left. rewrite Hs. reflexivity.
        -- left. rewrite Pe'. apply orb_true_r.
        -- right. exists e'. split; assumption.
Qed.

Lemma precedesb_spec (P Q : Event -> bool) (l : list Event) :
  precedesb P Q false l = true <-> precedes P Q l.
Proof.
  rewrite precedesb_seen. unfold precedes. split; intros H l1 e l2 Hl Qe.
  - destruct (H l1 e l2 Hl Qe) as [Hs|He]; [discriminate Hs | exact He].
  - right. exact (H l1 e l2 Hl Qe).
Qed.

Lemma main_order (env : Env) :
  precedesb validated spawns false (timeline (snd (main env initial))) = true
  /\ precedesb server_started creates_handler false
       (timeline (snd (main env initial))) = true
  /\ precedesb handler_created sets_ready false
       (timeline (snd (main env initial))) = true.
Proof. main_runs env ltac:(check; repeat split). Qed.

Lemma deploy_order (env : Env) :
  precedesb validated spawns_other false
    (timeline (snd (deploy env initial))) = true
  /\ precedesb validated creates_handler false
       (timeline (snd (deploy env initial))) = true
  /\ precedesb handler_created sets_ready false
       (timeline (snd (deploy env initial))) = true
  /\ existsb server_started (timeline (snd (deploy env initial))) = false.
Proof. deploy_runs env ltac:(check; repeat split). Qed.

(** C7 (counterexample): on the [create_app] path the initialisation task
    is spawned before validation has run, and the handler is created
    although no endpoint server was started by the program. *)
Lemma create_app_spawns_before_validation :
  ~ precedes validated spawns (timeline (snd (deploy env_ok initial)))
  /\ ~ precedes server_started creates_handler
         (timeline (snd (deploy env_ok initial))).
Proof.
  rewrite <- !precedesb_spec. split; vm_compute; discriminate.
Qed.

(** C7: in every run of [main], validation has succeeded before any
    concurrent activity is started, the endpoint server's site has started
    before the handler is created, and [is_ready] is written [True] only
    after the handler has been created.  On the [create_app] path the
    initialisation itself runs as a task spawned before validation and the
    program starts no endpoint server; inside that task validation
    precedes every other concurrent activity and the creation of the
    handler, and [is_ready] is written [True] only after the handler has
    been created. *)
Theorem startup_order (env : Env) :
  (precedes validated spawns (timeline (snd (main env initial)))
   /\ precedes server_started creates_handler
        (timeline (snd (main env initial)))
   /\ precedes handler_created sets_ready
        (timeline (snd (main env initial))))
  /\ (precedes validated spawns_other (timeline (snd (deploy env initial)))
      /\ precedes validated creates_handler
           (timeline (snd (deploy env initial)))
      /\ precedes handler_created sets_ready
           (timeline (snd (deploy env initial)))
      /\ Forall (fun e => server_started e = false)
           (timeline (snd (deploy env initial)))).
Proof.
  destruct (main_order env) as (H1 & H2 & H3).
  destruct (deploy_order env) as (H4 & H5 & H6 & H7).
  rewrite <- !precedesb_spec. repeat split; try assumption.
  apply List.Forall_forall. intros e He.
  destruct (server_started e) eqn:Hs; [|reflexivity].
  rewrite <- H7. symmetry. apply existsb_exists. exists e. split; assumption.
Qed.

(** * The readiness flag *)

Lemma never_clearedb_sound (l : list TradingBot) :
  forall seen,
    never_clearedb seen l = true ->
    (seen = true -> Forall (fun b => is_ready b = true) l)
    /\ never_cleared l.
Proof.
  unfold never_cleared.
  induction l as [|b0 l' IH]; intros seen; simpl.
  - intros _. split; [constructor|].
    intros [|b1 l1] b l2 H; discriminate H.
  - intros H. apply andb_true_iff in H as [Hb Hrest].
    destruct (IH _ Hrest) as [Hall Hnc]. split.
    + intros ->. simpl in Hall. constructor; [exact Hb | auto].
    + intros [|b1 l1] b l2 Heq Hr; simpl in Heq; injection Heq as -> ->.
      * apply Hall. rewrite Hr. apply orb_true_r.
      * exact (Hnc l1 b l2 eq_refl Hr).
Qed.

Lemma main_flag (env : Env) :
  never_clearedb false (snapshots (snd (main env initial))) = true
  /\ List.filter writes_ready (timeline (snd (main env initial)))
     = Assign (a_is_ready false)
       :: (if is_ready (bot (snd (main env initial)))
           then [Assign (a_is_ready true)] else []).
Proof. main_runs env ltac:(check; repeat split). Qed.

Lemma deploy_flag (env : Env) :
  never_clearedb false (snapshots (snd (deploy env initial))) = true
  /\ List.filter writes_ready (timeline (snd (deploy env initial)))
     = Assign (a_is_ready false)
       :: (if is_ready (bot (snd (deploy env initial)))
           then [Assign (a_is_ready true)] else []).
Proof. deploy_runs env ltac:(check; repeat split). Qed.

(** The operations that run while the bot is up leave the flag alone. *)
Lemma signal_handler_keeps_bot (stop : Res unit) (s : St) :
  bot (snd (signal_handler stop s)) = bot s.
Proof.
  unfold signal_handler, bind, logger, emit, get_bot, extern, sys_exit_,
    raise, ret; simpl.
  destruct (health_server (bot s)); simpl; [destruct stop|]; reflexivity.
Qed.

Lemma main_finally_keeps_bot (env : Env) (s : St) :
  bot (snd (main_finally env s)) = bot s.
Proof.
  unfold main_finally, bind, get_bot, extern, emit, logger,
    log_system_event, raise, ret; simpl.
  destruct (health_server (bot s)); simpl;
    [destruct (e_runner_cleanup env)|]; reflexivity.
Qed.

Lemma run_handler_keeps_bot (h : route_handler) (request : Request)
  (s : St) :
  bot (snd (run_handler h request s)) = bot s.
Proof.
  destruct h; simpl; try reflexivity.
  - unfold readiness_check, bind, get_bot, ret; simpl.
    destruct (is_ready (bot s) && truthy (telegram_handler (bot s)));
      reflexivity.
  - unfold metrics_endpoint, try_except, metrics_try, get_start_time,
      as_mapping, bind, extern, emit, logger, get_bot, raise, ret; simpl.
    destruct (q_time request) as [now|e]; simpl;
      [|destruct e; reflexivity].
    destruct (start_time (bot s)); simpl; [|reflexivity].
    destruct (q_get_metrics_summary request) as [summary|e]; simpl;
      [|destruct e; reflexivity].
    destruct (q_get_cache_stats request) as [cache_stats|e]; simpl;
      [|destruct e; reflexivity].
    destruct summary; reflexivity.
Qed.

(** C10: the flag of a bot instance starts false and is never cleared.
    Along every run of [main] and of the [create_app] path, once a
    recorded bot state has the flag set, every later one has it set; the
    writes to [is_ready] are the [False] of [__init__] followed, if the
    run gets that far, by a single [True], and the flag at the end of the
    run is true exactly if that write happened.  The signal handler, the
    [finally] suite of [main] and the route handlers do not change the
    bot, so shutdown and crash handling leave the flag as it is. *)
Theorem readiness_flag_monotone (env : Env) :
  (forall s, is_ready (bot (snd (new_TradingBot s))) = false)
  /\ (never_cleared (snapshots (snd (main env initial)))
      /\ List.filter writes_ready (timeline (snd (main env initial)))
         = Assign (a_is_ready false)
           :: (if is_ready (bot (snd (main env initial)))
               then [Assign (a_is_ready true)] else []))
  /\ (never_cleared (snapshots (snd (deploy env initial)))
      /\ List.filter writes_ready (timeline (snd (deploy env initial)))
         = Assign (a_is_ready false)
           :: (if is_ready (bot (snd (deploy env initial)))
               then [Assign (a_is_ready true)] else []))
  /\ (forall stop s, bot (snd (signal_handler stop s)) = bot s)
  /\ (forall s, bot (snd (main_finally env s)) = bot s)
  /\ (forall h request s, bot (snd (run_handler h request s)) = bot s).
Proof.
  destruct (main_flag env) as [Hm Hmw].
  destruct (deploy_flag env) as [Hd Hdw].
  split; [reflexivity|].
  split; [split; [apply (never_clearedb_sound _ false), Hm | exact Hmw]|].
  split; [split; [apply (never_clearedb_sound _ false), Hd | exact Hdw]|].
  split; [intros; apply signal_handler_keeps_bot|].
  split; [intros; apply main_finally_keeps_bot|].
  intros; apply run_handler_keeps_bot.
Qed.

(** * Further properties *)

(** ** Recording *)

Lemma since_app (l : list (Event * TradingBot)) (s : St) (b : TradingBot)
  (a : option Application) :
  since s {| bot := b; app := a; trace := l ++ trace s |}
  = rev (map fst l).
Proof.
  unfold since, timeline; simpl.
  rewrite map_app, rev_app_distr.
  rewrite <- (length_map fst (trace s)), <- length_rev.
  apply drop_app_length.
Qed.

(** Rewrites [since s s'] when the trace of [s'] visibly extends that of
    [s]. *)
Ltac prefix_of t base :=
  lazymatch t with
  | base => constr:(@nil (Event * TradingBot))
  | ?x :: ?t' => let l := prefix_of t' base in constr:(x :: l)
  end.

Ltac since_eval :=
  repeat match goal with
    | |- context [since ?s {| bot := ?b; app := ?a; trace := ?t |}] =>
        let base := eval cbv beta iota delta [trace] in (trace s) in
        let l := prefix_of t base in
        change (since s {| bot := b; app := a; trace := t |})
          with (since s {| bot := b; app := a; trace := l ++ trace s |});
        rewrite (since_app l s b a)
    end;
  cbv beta iota delta [List.rev List.map List.app fst].

(** Unfolds the monad in a function that is analysed from an arbitrary
    state. *)
Ltac step_through :=
  cbv beta iota zeta delta
    [validate_environment start_health_server get_port init_bot create_app
     signal_handler metrics_endpoint metrics_try get_start_time as_mapping
     main_finally new_TradingBot __init__ blank
     set_telegram_handler set_health_server set_is_ready set_config
     set_security_config set_rate_limiter set_input_validator set_start_time
     setattr sys_exit_ log_security_event log_system_event logger extern
     raised put_app get_app put_bot get_bot emit try_finally try_except
     raise bind ret lift truthy
     bot app trace telegram_handler health_server is_ready config
     security_config rate_limiter input_validator start_time
     fst snd negb andb orb is_Exception is_validation_error first_failure].

(** ** [validate_environment] *)

(** X1: [validate_environment] returns [True] exactly when the three
    validation calls all return; it returns [False] when the first call
    that fails raises [ValueError] or [SecurityError]; a first failure of
    any other kind leaves the method as the exception it is. *)
Theorem validate_environment_outcome (env : Env) (s : St) :
  fst (validate_environment env s)
  = match first_failure env with
    | None => Ok true
    | Some e => if is_validation_error e then Ok false else Raise e
    end.
Proof.
  step_through.
  destruct (e_validate_required_configs env) as [cfg|e]; step_through;
    [|settle_exn; reflexivity].
  destruct (e_RateLimiter env) as [rl|e]; step_through;
    [|settle_exn; reflexivity].
  destruct (e_InputValidator env) as [iv|e]; step_through;
    [|settle_exn; reflexivity].
  reflexivity.
Qed.

Ltac assigned :=
  repeat split; intros;
  repeat match goal with
    | H : Ok ?x = Ok ?y |- _ => assert (x = y) by congruence; clear H; subst
    end;
  repeat split; first [congruence | reflexivity].

(** X2: [validate_environment] assigns as it goes and never rolls back.
    It leaves the handler, the server, the readiness flag, the start time
    and the application alone; when it returns [True] the configuration,
    the security configuration, the rate limiter and the input validator
    are all set; and once the configuration has been read it stays
    assigned, with its security part, even if a later step fails. *)
Theorem validate_environment_assigns (env : Env) (s : St) :
  let s' := snd (validate_environment env s) in
  (telegram_handler (bot s') = telegram_handler (bot s)
   /\ health_server (bot s') = health_server (bot s)
   /\ is_ready (bot s') = is_ready (bot s)
   /\ start_time (bot s') = start_time (bot s)
   /\ app s' = app s)
  /\ (fst (validate_environment env s) = Ok true ->
      config (bot s') <> None /\ security_config (bot s') <> None
      /\ rate_limiter (bot s') <> None /\ input_validator (bot s') <> None)
  /\ (forall cfg, e_validate_required_configs env = Ok cfg ->
      config (bot s') = Some cfg
      /\ security_config (bot s') = Some (security cfg)).
Proof.
  step_through.
  destruct (e_validate_required_configs env) as [cfg|e]; step_through;
    [|settle_exn; assigned].
  destruct (e_RateLimiter env) as [rl|e]; step_through;
    [|settle_exn; assigned].
  destruct (e_InputValidator env) as [iv|e]; step_through;
    [|settle_exn; assigned].
  assigned.
Qed.

Lemma validate_environment_assigns_witness :
  config (bot (snd (validate_environment env_ok initial))) <> None
  /\ input_validator (bot (snd (validate_environment env_ok initial)))
     <> None.
Proof.
  destruct (validate_environment_assigns env_ok initial) as (_ & H & _).
  destruct H as (H1 & _ & _ & H4); [reflexivity|]. split; assumption.
Defined.

(** X3: every call of [validate_environment] that returns leaves exactly
    one audit record: the system event on success, and on failure a
    security event whose detail carries the text of the exception
    unchanged.  A call that raises leaves none. *)
Theorem validate_environment_audit (env : Env) (s : St) :
  List.filter is_audit (since s (snd (validate_environment env s)))
  = match first_failure env with
    | None =>
        [SystemEvent "environment_validation"
           "Environment and security validation completed"]
    | Some e =>
        if is_validation_error e then
          [SecurityEvent "environment_validation_failed"
             ("Validation failed: " +:+ str e) None]
        else []
    end.
Proof.
  destruct s as [b a tr]. step_through.
  destruct (e_validate_required_configs env) as [cfg|e]; step_through;
    [|settle_exn; step_through; since_eval; reflexivity].
  destruct (e_RateLimiter env) as [rl|e]; step_through;
    [|settle_exn; step_through; since_eval; reflexivity].
  destruct (e_InputValidator env) as [iv|e]; step_through;
    [|settle_exn; step_through; since_eval; reflexivity].
  since_eval; reflexivity.
Qed.

(** ** [start_health_server] and the route table *)

(** X4: when [start_health_server] returns, it returns a runner for the
    application with the four routes, and it has started exactly one site,
    on host 0.0.0.0 and on the port given by [PORT], or 8080 when [PORT]
    is unset.  It does not touch the bot: assigning [health_server] is
    left to the caller. *)
Theorem start_health_server_binds (env : Env) (s : St) (runner : AppRunner) :
  fst (start_health_server env s) = Ok runner ->
  runner_app runner = routes []
  /\ List.filter site_starts (since s (snd (start_health_server env s)))
     = [Call (site_start "0.0.0.0" (port_of env)) None]
  /\ bot (snd (start_health_server env s)) = bot s
  /\ app (snd (start_health_server env s)) = app s.
Proof.
  destruct s as [b a tr]. unfold port_of. step_through.
  destruct (e_runner_setup env) as [[]|e]; step_through;
    [|intros H; discriminate H].
  destruct (e_environ_PORT env) as [[port|e]|]; step_through;
    try (intros H; discriminate H);
    (destruct (e_site_start env) as [[]|e]; step_through;
     [|intros H; discriminate H]);
    intros [= <-]; since_eval; repeat split.
Qed.

Lemma start_health_server_binds_witness :
  List.filter site_starts
    (since initial (snd (start_health_server env_ok initial)))
  = [Call (site_start "0.0.0.0" 8080) None].
Proof.
  destruct (start_health_server_binds env_ok initial
              {| runner_app := routes [] |}) as (_ & H & _);
    [reflexivity | exact H].
Defined.

(** X5: the steps of [start_health_server] stop at the first failure.
    When [runner.setup()] raises, nothing else is attempted.  When [PORT]
    is set to something [int()] rejects, the runner has already been set
    up, no site is started, and the exception leaves the method. *)
Theorem start_health_server_failures (env : Env) (s : St) (e : exn) :
  (e_runner_setup env = Raise e ->
   fst (start_health_server env s) = Raise e
   /\ since s (snd (start_health_server env s))
      = [Call runner_setup (Some e)])
  /\ (e_runner_setup env = Ok tt ->
      e_environ_PORT env = Some (Raise e) ->
      fst (start_health_server env s) = Raise e
      /\ since s (snd (start_health_server env s))
         = [Call runner_setup None; Call int_PORT (Some e)]).
Proof.
  destruct s as [b a tr]. split.
  - intros H. step_through. rewrite H. step_through. since_eval.
    split; reflexivity.
  - intros H1 H2. step_through. rewrite H1, H2. step_through. since_eval.
    split; reflexivity.
Qed.

Lemma start_health_server_failures_witness :
  since initial (snd (start_health_server env_bad_port initial))
  = [Call runner_setup None;
     Call int_PORT
       (Some (Exc ValueError
                "invalid literal for int() with base 10: 'http'"))].
Proof.
  destruct (start_health_server_failures env_bad_port initial
              (Exc ValueError
                 "invalid literal for int() with base 10: 'http'"))
    as (_ & H).
  destruct H as (_ & H); [reflexivity | reflexivity | exact H].
Defined.

(** X6: the route table that both entry points register serves exactly
    four paths: [/health], [/ready], [/metrics] and [/], each with its own
    handler; every other path has no handler. *)
Theorem routes_table (path : string) (h : route_handler) :
  resolve (routes []) path = Some h <->
  (path = "/health" /\ h = r_health_check)
  \/ (path = "/ready" /\ h = r_readiness_check)
  \/ (path = "/metrics" /\ h = r_metrics_endpoint)
  \/ (path = "/" /\ h = r_root).
Proof.
  split.
  - cbv beta iota delta [routes add_get resolve List.app].
    destruct (String.eqb_spec "/health" path) as [<-|?];
      [intros [= <-]; tauto|].
    destruct (String.eqb_spec "/ready" path) as [<-|?];
      [intros [= <-]; tauto|].
    destruct (String.eqb_spec "/metrics" path) as [<-|?];
      [intros [= <-]; tauto|].
    destruct (String.eqb_spec "/" path) as [<-|?];
      [intros [= <-]; tauto|].
    intros H; discriminate H.
  - intros [[-> ->]|[[-> ->]|[[-> ->]|[-> ->]]]]; reflexivity.
Qed.

(** ** The metrics payload *)

(** X7: in the metrics payload a key of the collector's summary shadows
    the bot's own metric of the same name, and the cache statistics
    replace any [cache_stats] key of the summary.  The bot's [ready] and
    [telegram_handler_status] are reported as they are only if the summary
    has no such key. *)
Theorem metrics_summary_shadows (request : Request) (s : St)
  (resp : Response) (summary : gmap string json) :
  q_get_metrics_summary request = Ok (JDict summary) ->
  fst (metrics_try request s) = Ok resp ->
  exists d cache_stats,
    payload resp = Json (JDict d)
    /\ q_get_cache_stats request = Ok cache_stats
    /\ d !! "cache_stats" = Some cache_stats
    /\ (forall k, k <> "cache_stats" -> is_Some (summary !! k) ->
          d !! k = summary !! k)
    /\ (summary !! "ready" = None ->
        d !! "ready" = Some (JBool (is_ready (bot s))))
    /\ (summary !! "telegram_handler_status" = None ->
        d !! "telegram_handler_status"
        = Some (JStr (if truthy (telegram_handler (bot s))
                      then "active" else "inactive"))).
Proof.
  intros Hsum.
  unfold metrics_try, get_start_time, as_mapping, bind, extern, emit,
    get_bot, raise, ret; simpl.
  destruct (q_time request) as [now|e]; simpl; [|discriminate].
  destruct (start_time (bot s)) as [t0|]; simpl; [|discriminate].
  rewrite Hsum; simpl.
  destruct (q_get_cache_stats request) as [cache_stats|e]; simpl;
    [|discriminate].
  intros [= <-]; simpl. eexists; exists cache_stats.
  split; [reflexivity|]. split; [reflexivity|].
  split; [apply lookup_insert_eq|]. split; [|split].
  - intros k Hk [v Hv]. rewrite lookup_insert_ne by congruence.
    rewrite Hv. apply lookup_union_Some_l. exact Hv.
  - intros Hnone. rewrite lookup_insert_ne by done.
    rewrite lookup_union_r by exact Hnone.
    rewrite lookup_insert_ne by done. apply lookup_insert_eq.
  - intros Hnone. rewrite lookup_insert_ne by done.
    rewrite lookup_union_r by exact Hnone. apply lookup_insert_eq.
Qed.

Lemma metrics_summary_shadows_witness :
  exists d cache_stats,
    payload (json_response
               (JDict (<["cache_stats" := JDict ∅]>
                         (∅ ∪ (<["telegram_handler_status" := JStr "active"]>
                                (<["ready" := JBool true]>
                                (<["uptime_seconds" :=
                                    JFloat (PrimFloat.sub 1 0)]> ∅)))))) 200)
    = Json (JDict d)
    /\ q_get_cache_stats plain_request = Ok cache_stats
    /\ d !! "ready" = Some (JBool true).
Proof.
  destruct (metrics_summary_shadows plain_request serving _ ∅ eq_refl
              eq_refl) as (d & c & H1 & H2 & _ & _ & H5 & _).
  exists d, c. split; [exact H1|]. split; [exact H2|].
  apply H5. apply lookup_empty.
Defined.

(** X8: two inputs on which the metrics endpoint answers 500.  A bot
    whose [start_time] was never assigned: the endpoint fails on the
    uptime, logs one error and never consults the collector or the
    caches.  A collector summary that is not a mapping: both collaborators
    are called and return, the endpoint fails when it merges the payload,
    and the one error it logs carries the [TypeError] text with the type
    of the summary. *)
Theorem metrics_unavailable_on (request : Request) (s : St) (now : float) :
  q_time request = Ok now ->
  (start_time (bot s) = None ->
   fst (metrics_endpoint request s) = Ok metrics_unavailable
   /\ since s (snd (metrics_endpoint request s))
      = [Call time_time None;
         Log ERROR ("Error in metrics endpoint: "
                    +:+ "'TradingBot' object has no attribute 'start_time'")])
  /\ (forall t0 summary cache_stats,
        start_time (bot s) = Some t0 ->
        q_get_metrics_summary request = Ok summary ->
        q_get_cache_stats request = Ok cache_stats ->
        (forall d, summary <> JDict d) ->
        fst (metrics_endpoint request s) = Ok metrics_unavailable
        /\ since s (snd (metrics_endpoint request s))
           = [Call time_time None;
              Call get_metrics_summary None;
              Call get_cache_stats None;
              Log ERROR ("Error in metrics endpoint: "
                         +:+ "'" +:+ type_name summary
                         +:+ "' object is not a mapping")]).
Proof.
  intros Ht. destruct s as [[th hs ir cf sc rl iv st] a tr]. simpl. split.
  - intros ->. step_through. rewrite Ht. step_through. since_eval.
    split; reflexivity.
  - intros t0 summary cache_stats -> Hsum Hc Hd.
    step_through. rewrite Ht. step_through. rewrite Hsum.
    step_through. rewrite Hc. step_through.
    destruct summary as [| | | | |d]; step_through;
      try (since_eval; split; reflexivity).
    destruct (Hd d eq_refl).
Qed.

Lemma metrics_unavailable_on_witness :
  fst (metrics_endpoint plain_request initial) = Ok metrics_unavailable
  /\ since serving
       (snd (metrics_endpoint
               {| q_path := "/metrics";
                  q_time := Ok 1%float;
                  q_get_metrics_summary := Ok (JInt 3);
                  q_get_cache_stats := Ok (JDict ∅) |} serving))
     = [Call time_time None;
        Call get_metrics_summary None;
        Call get_cache_stats None;
        Log ERROR
          "Error in metrics endpoint: 'int' object is not a mapping"].
Proof.
  split.
  - destruct (metrics_unavailable_on plain_request initial 1 eq_refl)
      as (H & _).
    apply H. reflexivity.
  - destruct (metrics_unavailable_on
                {| q_path := "/metrics";
                   q_time := Ok 1%float;
                   q_get_metrics_summary := Ok (JInt 3);
                   q_get_cache_stats := Ok (JDict ∅) |} serving 1 eq_refl)
      as (_ & H).
    destruct (H 0%float (JInt 3) (JDict ∅) eq_refl eq_refl eq_refl)
      as (_ & H2); [discriminate | exact H2].
Defined.

(** ** The signal handler when the stop fails *)

(** X9: when [health_server.stop()] raises, the signal handler does not
    reach [sys.exit(0)]: the exception of the stop is what the handler
    raises.  With no server set the stop is not called at all. *)
Theorem signal_handler_stop_failure (s : St) (e : exn) (stop : Res unit) :
  (health_server (bot s) <> None ->
   fst (signal_handler (Raise e) s) = Raise e
   /\ existsb exits (since s (snd (signal_handler (Raise e) s))) = false)
  /\ (health_server (bot s) = None ->
      existsb stops_server (since s (snd (signal_handler stop s))) = false
      /\ fst (signal_handler stop s) = Raise (SystemExit 0)).
Proof.
  destruct s as [[th hs ir cf sc rl iv st] a tr]. simpl. split.
  - destruct hs as [r|]; [|congruence]. intros _.
    step_through. since_eval. split; reflexivity.
  - intros ->. step_through. since_eval. split; reflexivity.
Qed.

Lemma signal_handler_stop_failure_witness :
  fst (signal_handler
         (Raise (Exc (OtherError "AttributeError")
                   "'AppRunner' object has no attribute 'stop'")) serving)
  = Raise (Exc (OtherError "AttributeError")
             "'AppRunner' object has no attribute 'stop'").
Proof.
  destruct (signal_handler_stop_failure serving
              (Exc (OtherError "AttributeError")
                 "'AppRunner' object has no attribute 'stop'") (Ok tt))
    as (H & _).
  apply H. discriminate.
Defined.

(** ** [create_app] and [init_bot] *)

(** X10: the first call of [create_app] always leaves the application
    built, with the four routes, and a fresh bot that is not ready,
    whether or not scheduling [init_bot] succeeds; the call returns the
    application exactly if the scheduling returned.  Since [app] is then
    set, a later call returns the application and does nothing else: when
    the scheduling failed, [init_bot] is never scheduled again. *)
Theorem create_app_first_call (env env' : Env) :
  let s1 := snd (create_app env initial) in
  app s1 = Some (routes [])
  /\ bot s1 = fresh (e_time env)
  /\ fst (create_app env initial)
     = match e_create_task env init_bot_task with
       | Ok _ => Ok (Some (routes []))
       | Raise e => Raise e
       end
  /\ create_app env' s1 = (Ok (Some (routes [])), s1).
Proof.
  unfold fresh. step_through.
  destruct (e_create_task env init_bot_task) as [[]|e]; step_through;
    repeat split.
Qed.

(** X11: [init_bot] never raises an exception that derives from
    [Exception]: whatever its steps raise below [Exception] is logged and
    swallowed, and the coroutine returns. *)
Theorem init_bot_swallows (env : Env) (s : St) :
  fst (init_bot env s) = Ok tt
  \/ exists e, fst (init_bot env s) = Raise e /\ is_Exception e = false.
Proof.
  pose (fin := fun (r : Res unit) =>
          r = Ok tt \/ exists e, r = Raise e /\ is_Exception e = false).
  change (fin (fst (init_bot env s))).
  assert (Hok : fin (Ok tt)) by (left; reflexivity).
  assert (Hr : forall e, is_Exception e = false -> fin (Raise e))
    by (intros e He; right; exists e; split; [reflexivity | exact He]).
  clearbody fin. step_through.
  destruct s as [b a tr].
  destruct (e_validate_required_configs env) as [cfg|e]; step_through;
    [|settle_exn; first [exact Hok | apply Hr; reflexivity]].
  destruct (e_RateLimiter env) as [rl|e]; step_through;
    [|settle_exn; first [exact Hok | apply Hr; reflexivity]].
  destruct (e_InputValidator env) as [iv|e]; step_through;
    [|settle_exn; first [exact Hok | apply Hr; reflexivity]].
  destruct (e_start_metrics_server env) as [[]|e]; step_through;
    [|settle_exn; first [exact Hok | apply Hr; reflexivity]].
  destruct (e_setup_periodic_cleanup env) as [[]|e]; step_through;
    [|settle_exn; first [exact Hok | apply Hr; reflexivity]].
  destruct (e_TelegramHandler env) as [h|e]; step_through;
    [|settle_exn; first [exact Hok | apply Hr; reflexivity]].
  destruct (e_set_ready_status env) as [[]|e]; step_through;
    [|settle_exn; first [exact Hok | apply Hr; reflexivity]].
  destruct (e_create_task env handler_run_task) as [[]|e]; step_through;
    [|settle_exn; first [exact Hok | apply Hr; reflexivity]].
  exact Hok.
Qed.

(** ** Runs of [main] *)

Lemma main_facts (env : Env) :
  forallb ready_is_backed
    (bot (snd (main env initial)) :: snapshots (snd (main env initial)))
  = true
  /\ length (List.filter tears_down (timeline (snd (main env initial))))
     = (if existsb server_started (timeline (snd (main env initial)))
        then 1 else 0)%nat
  /\ (List.filter exits (timeline (snd (main env initial))) = []
      \/ List.filter exits (timeline (snd (main env initial)))
         = [Call (sys_exit 1) (Some (SystemExit 1))])
  /\ precedesb is_security_event exits false
       (timeline (snd (main env initial))) = true
  /\ precedesb sets_ready runs_handler false
       (timeline (snd (main env initial))) = true
  /\ precedesb startup_complete runs_handler false
       (timeline (snd (main env initial))) = true
  /\ distinct (map call_site (calls (timeline (snd (main env initial)))))
     = true
  /\ app (snd (main env initial)) = None.
Proof.
  main_runs env ltac:(check2;
    repeat split; try reflexivity;
    first [left; reflexivity | right; reflexivity]).
Qed.

Lemma deploy_facts (env : Env) :
  forallb ready_has_handler
    (bot (snd (deploy env initial)) :: snapshots (snd (deploy env initial)))
  = true
  /\ is_ready (bot (snd (deploy env initial)))
     = existsb handler_created (timeline (snd (deploy env initial)))
  /\ precedesb sets_ready spawns_handler_run false
       (timeline (snd (deploy env initial))) = true
  /\ distinct (map call_site (calls (timeline (snd (deploy env initial)))))
     = true.
Proof. deploy_runs env ltac:(check2; repeat split). Qed.

Lemma existsb_Exists (p : Event -> bool) (l : list Event) :
  existsb p l = true <-> Exists (fun e => p e = true) l.
Proof.
  rewrite existsb_exists, List.Exists_exists. reflexivity.
Qed.

Lemma forallb_Forall {A} (p : A -> bool) (l : list A) :
  forallb p l = true <-> Forall (fun x => p x = true) l.
Proof.
  rewrite forallb_forall, List.Forall_forall. reflexivity.
Qed.

Lemma distinct_NoDup (l : list nat) : distinct l = true -> List.NoDup l.
Proof.
  induction l as [|n l IH]; simpl; intros H; [constructor|].
  apply andb_true_iff in H as [Hn Hl]. constructor; [|exact (IH Hl)].
  intros Hin. apply negb_true_iff in Hn.
  assert (existsb (Nat.eqb n) l = true) as Hex
    by (apply existsb_exists; exists n; split;
        [exact Hin | apply Nat.eqb_refl]).
  congruence.
Qed.

Lemma backed_probe (b : TradingBot) (request : Request) :
  ready_is_backed b = true ->
  (is_ready b = true ->
   telegram_handler b <> None /\ health_server b <> None)
  /\ forall a tr,
       fst (readiness_check request {| bot := b; app := a; trace := tr |})
       = Ok {| status := 200; payload := Text "Ready" |}
       <-> is_ready b = true.
Proof.
  unfold ready_is_backed, readiness_check, bind, get_bot, ret; simpl.
  destruct (is_ready b), (telegram_handler b), (health_server b);
    simpl; intros Hb; try discriminate Hb;
    (split; [intros; split; congruence
            | intros a0 tr0; split; intros H;
              first [reflexivity | discriminate H]]).
Qed.

(** X12: in every state recorded along a run of [main], and in the last
    one, a bot whose readiness flag is set has its handler and its
    endpoint server; so the readiness probe answers 200 in such a state
    exactly if the flag is set. *)
Theorem ready_is_backed_in_main (env : Env) (request : Request) :
  Forall (fun b =>
            (is_ready b = true ->
             telegram_handler b <> None /\ health_server b <> None)
            /\ forall a tr,
                 fst (readiness_check request
                        {| bot := b; app := a; trace := tr |})
                 = Ok {| status := 200; payload := Text "Ready" |}
                 <-> is_ready b = true)
    (bot (snd (main env initial)) :: snapshots (snd (main env initial))).
Proof.
  destruct (main_facts env) as (H & _).
  apply forallb_Forall in H. revert H. apply List.Forall_impl.
  intros b. apply backed_probe.
Qed.

(** X13: a run of [main] tears the endpoint server down exactly once if
    its site was started, and never otherwise.  In particular a runner
    that was set up but whose site did not start is not cleaned up. *)
Theorem teardown_once_if_started (env : Env) :
  (Exists (fun e => server_started e = true)
     (timeline (snd (main env initial))) ->
   length (List.filter tears_down (timeline (snd (main env initial))))
   = 1%nat)
  /\ (~ Exists (fun e => server_started e = true)
        (timeline (snd (main env initial))) ->
      List.filter tears_down (timeline (snd (main env initial))) = []).
Proof.
  destruct (main_facts env) as (_ & H & _). split.
  - intros Hs. apply existsb_Exists in Hs. rewrite Hs in H. exact H.
  - intros Hs.
    destruct (existsb server_started (timeline (snd (main env initial))))
      eqn:Hb.
    + destruct Hs. apply existsb_Exists. exact Hb.
    + apply length_zero_iff_nil. exact H.
Qed.

Lemma teardown_once_if_started_witness :
  length (List.filter tears_down (timeline (snd (main env_ok initial))))
  = 1%nat
  /\ List.filter tears_down (timeline (snd (main env_bad_port initial)))
     = [].
Proof.
  split.
  - destruct (teardown_once_if_started env_ok) as (H & _). apply H.
    apply List.Exists_exists.
    exists (Call (site_start "0.0.0.0" 8080) None).
    split; [find_in | reflexivity].
  - destruct (teardown_once_if_started env_bad_port) as (_ & H). apply H.
    intros Hs. apply existsb_Exists in Hs. vm_compute in Hs.
    discriminate Hs.
Defined.

(** X14: [main] calls [sys.exit] at most once, only with code 1, and
    never before it has recorded a security audit event. *)
Theorem exit_is_audited (env : Env) :
  (List.filter exits (timeline (snd (main env initial))) = []
   \/ List.filter exits (timeline (snd (main env initial)))
      = [Call (sys_exit 1) (Some (SystemExit 1))])
  /\ precedes is_security_event exits (timeline (snd (main env initial))).
Proof.
  destruct (main_facts env) as (_ & _ & H1 & H2 & _).
  split; [exact H1 | apply precedesb_spec, H2].
Qed.

(** X15: the handler's run loop is entered only after the bot has been
    marked ready: in [main], [handler.run()] is awaited only after the
    write [is_ready = True] and after the start-up audit event; on the
    [create_app] path the run task is scheduled only after that write. *)
Theorem run_loop_after_ready (env : Env) :
  precedes sets_ready runs_handler (timeline (snd (main env initial)))
  /\ precedes startup_complete runs_handler
       (timeline (snd (main env initial)))
  /\ precedes sets_ready spawns_handler_run
       (timeline (snd (deploy env initial))).
Proof.
  destruct (main_facts env) as (_ & _ & _ & _ & H1 & H2 & _).
  destruct (deploy_facts env) as (_ & _ & H3 & _).
  repeat split; apply precedesb_spec; assumption.
Qed.

(** X16: no external call is made twice in a run: neither [main] nor the
    [create_app] path repeats a call to a collaborator, whatever fails. *)
Theorem no_call_is_repeated (env : Env) :
  List.NoDup (calls (timeline (snd (main env initial))))
  /\ List.NoDup (calls (timeline (snd (deploy env initial)))).
Proof.
  destruct (main_facts env) as (_ & _ & _ & _ & _ & _ & H1 & _).
  destruct (deploy_facts env) as (_ & _ & _ & H2).
  split; apply (List.NoDup_map_inv call_site), distinct_NoDup; assumption.
Qed.

(** X17: on the [create_app] path the bot is ready at the end exactly if
    the handler object was created, whether or not reporting readiness
    and scheduling the handler's run task then succeed; and a bot whose
    flag is set always has its handler. *)
Theorem deploy_ready_iff_handler_created (env : Env) :
  (is_ready (bot (snd (deploy env initial))) = true
   <-> Exists (fun e => handler_created e = true)
         (timeline (snd (deploy env initial))))
  /\ Forall (fun b => is_ready b = true -> telegram_handler b <> None)
       (bot (snd (deploy env initial))
        :: snapshots (snd (deploy env initial))).
Proof.
  destruct (deploy_facts env) as (H1 & H2 & _). split.
  - rewrite H2. apply existsb_Exists.
  - apply forallb_Forall in H1. revert H1. apply List.Forall_impl.
    intros b Hb Hr. unfold ready_has_handler in Hb. rewrite Hr in Hb.
    destruct (telegram_handler b); [discriminate | discriminate Hb].
Qed.

(** ** Outcomes of the bounded wait, and the start-up that succeeds *)

(** X18: a failure of the preload task is not fatal.  In every run of
    [main] in which the bounded wait is reached and raises an exception
    below [Exception] other than the timeout, exactly one warning is
    logged, with the text of the exception; the next steps are that
    warning, the audit event [preloading_failed] and the write
    [is_ready = True]; and the flag is true when [main] ends. *)
Theorem preload_failure_is_not_fatal (env : Env) (c : exn_class)
  (m : string) :
  e_wait_for env = Raise (Exc c m) ->
  c <> TimeoutError ->
  Exists (fun e => waits e = true) (timeline (snd (main env initial))) ->
  List.filter is_warning (timeline (snd (main env initial)))
  = [Log WARNING ("⚠️ Preloading failed: " +:+ m
                  +:+ ", continuing startup")]
  /\ take 3 (following waits (timeline (snd (main env initial))))
     = [Log WARNING ("⚠️ Preloading failed: " +:+ m
                     +:+ ", continuing startup");
        SystemEvent "preloading_failed" ("Preloading failed: " +:+ m);
        Assign (a_is_ready true)]
  /\ is_ready (bot (snd (main env initial))) = true.
Proof.
  intros Hw Hc Hr. apply existsb_Exists in Hr. revert Hw Hc Hr.
  main_runs env ltac:(check2; intros Hw Hc Hr; try discriminate Hr;
    try discriminate Hw;
    injection Hw as <- <-; try (destruct Hc; reflexivity);
    repeat split).
Qed.

Lemma preload_failure_is_not_fatal_witness :
  is_ready (bot (snd (main env_preload_fails initial))) = true.
Proof.
  destruct (preload_failure_is_not_fatal env_preload_fails
              (OtherError "OSError") "disk full") as (_ & _ & H).
  - reflexivity.
  - discriminate.
  - apply List.Exists_exists.
    exists (Call (wait_for preload_task 30)
              (Some (Exc (OtherError "OSError") "disk full"))).
    split; [find_in | reflexivity].
  - exact H.
Defined.

(** X19: an exception outside [Exception] raised by the bounded wait
    (a user interrupt, a cancellation, an exit) is not caught there: the
    start-up is abandoned, no warning is logged, [is_ready] is never
    written [True], and the handler's run loop is never entered. *)
Theorem interrupted_wait_aborts_startup (env : Env) (e : exn) :
  e_wait_for env = Raise e ->
  is_Exception e = false ->
  Exists (fun e => waits e = true) (timeline (snd (main env initial))) ->
  List.filter is_warning (timeline (snd (main env initial))) = []
  /\ List.filter sets_ready (timeline (snd (main env initial))) = []
  /\ List.filter runs_handler (timeline (snd (main env initial))) = []
  /\ is_ready (bot (snd (main env initial))) = false.
Proof.
  intros Hw He Hr. apply existsb_Exists in Hr.
  set (ne := is_Exception e) in He. revert Hw He Hr.
  main_runs env ltac:(check2; intros Hw He Hr; try discriminate Hr;
    try discriminate Hw; injection Hw as Heq; unfold ne in He;
    rewrite <- Heq in He; try discriminate He; repeat split).
Qed.

Lemma interrupted_wait_aborts_startup_witness :
  is_ready (bot (snd (main env_interrupted_wait initial))) = false.
Proof.
  destruct (interrupted_wait_aborts_startup env_interrupted_wait
              KeyboardInterrupt) as (_ & _ & _ & H).
  - reflexivity.
  - reflexivity.
  - apply List.Exists_exists.
    exists (Call (wait_for preload_task 30) (Some KeyboardInterrupt)).
    split; [find_in | reflexivity].
  - exact H.
Defined.

(** X20: the start-up succeeds when its calls do.  If validation, the
    spawning of the preload task, the background services, the endpoint
    server (with [PORT] unset or a numeral) and the creation of the
    handler all return, and the bounded wait returns, times out or fails
    below [Exception], then [main] marks the bot ready.  If moreover the
    readiness report returns and the cache statistics have the entry that
    is logged, [main] goes on to await [handler.run()]. *)
Theorem startup_reaches_ready (env : Env) :
  returned (e_validate_required_configs env) ->
  returned (e_RateLimiter env) ->
  returned (e_InputValidator env) ->
  returned (e_create_task env preload_task) ->
  returned (e_start_metrics_server env) ->
  returned (e_setup_periodic_cleanup env) ->
  returned (e_runner_setup env) ->
  port_parses env ->
  returned (e_site_start env) ->
  returned (e_TelegramHandler env) ->
  returns_or_fails (e_wait_for env) ->
  (Exists (fun e => sets_ready e = true) (timeline (snd (main env initial)))
   /\ is_ready (bot (snd (main env initial))) = true)
  /\ (returned (e_set_ready_status env) -> cache_stats_usable env ->
      Exists (fun e => runs_handler e = true)
        (timeline (snd (main env initial)))).
Proof.
  rewrite <- !existsb_Exists.
  unfold returned, port_parses, cache_stats_usable, returns_or_fails.
  main_runs env ltac:(check2; intros; try contradiction;
    try discriminate; repeat split; intros; try contradiction;
    reflexivity).
Qed.

Lemma startup_reaches_ready_witness :
  is_ready (bot (snd (main env_ok initial))) = true
  /\ Exists (fun e => runs_handler e = true)
       (timeline (snd (main env_ok initial))).
Proof.
  destruct (startup_reaches_ready env_ok) as ((_ & H1) & H2);
    try exact I.
  split; [exact H1 | apply H2; exact I].
Defined.

(** ** The module body *)

(** What [create_app] does after [main], given only that [main] left
    [app] unset. *)
Lemma create_app_after (env' : Env) (s : St) :
  app s = None ->
  app (snd (create_app env' s)) = Some (routes [])
  /\ bot (snd (create_app env' s)) = fresh (e_time env')
  /\ fst (create_app env' s)
     = match e_create_task env' init_bot_task with
       | Ok _ => Ok (Some (routes []))
       | Raise e => Raise e
       end.
Proof.
  destruct s as [b a tr]. simpl. intros ->. unfold fresh. step_through.
  destruct (e_create_task env' init_bot_task) as [[]|e]; step_through;
    repeat split.
Qed.





(** * Exit status of the script *)

(** How [main] ends after a failed validation, after a user interrupt
    and after a crash of the handler's run loop, the server teardown
    returning. *)
Lemma main_outcome (env : Env) :
  (fst (validate_environment env initial) = Ok false ->
   fst (main env initial) = Raise (SystemExit 1))
  /\ (e_runner_cleanup env = Ok tt ->
      existsb interrupted (timeline (snd (main env initial))) = true ->
      fst (main env initial) = Ok tt)
  /\ (e_runner_cleanup env = Ok tt ->
      existsb handler_crashed (timeline (snd (main env initial))) = true ->
      fst (main env initial) = Raise (SystemExit 1)).
Proof.
  main_runs env ltac:(check;
    repeat split; intros; try discriminate; try reflexivity).
Qed.

(** A [SystemExit] that leaves [main] ends the script. *)
Lemma script_passes_exit (lenv : LoopEnv) (env env' : Env) (code : Z) :
  runs_main_directly lenv ->
  fst (main env initial) = Raise (SystemExit code) ->
  fst (module_body lenv env env' true initial) = Raise (SystemExit code).
Proof.
  intros (Hl & Hr & Ha) Hm.
  unfold module_body, entry_point, try_except, bind, lift, ret, raise.
  rewrite Hl, Hr, Ha. cbv beta iota.
  destruct (main env initial) as [r s1]. simpl in Hm |- *. subst r.
  reflexivity.
Qed.

(** C9: the exit status of the script, that is of the [__main__] block
    followed by line 287, started with no event loop running.  The claim
    gives status 0 to a shutdown requested by the user; the script does
    not deliver it.  When a call in [main] is cut short by
    [KeyboardInterrupt] and the server teardown returns, [main] catches
    the interrupt and returns; the script then goes on to
    [app = create_app()], whose [asyncio.create_task] raises
    [RuntimeError] for lack of a running loop, and the script ends with
    that error and status 1.  No run of [main] installs the signal
    handler with its [sys.exit(0)].  The other half of the claim holds:
    a failed validation and a crash of [handler.run()] (the teardown
    returning) end the script with [SystemExit(1)], status 1. *)
Theorem script_exit_status (lenv : LoopEnv) (env env' : Env) :
  runs_main_directly lenv ->
  (forall msg,
     e_runner_cleanup env = Ok tt ->
     Exists (fun e => interrupted e = true)
       (timeline (snd (main env initial))) ->
     e_create_task env' init_bot_task
     = Raise (Exc (OtherError "RuntimeError") msg) ->
     fst (main env initial) = Ok tt
     /\ fst (module_body lenv env env' true initial)
        = Raise (Exc (OtherError "RuntimeError") msg)
     /\ exit_status (fst (module_body lenv env env' true initial)) = 1)
  /\ existsb installs_handler (timeline (snd (main env initial))) = false
  /\ (fst (validate_environment env initial) = Ok false ->
      fst (module_body lenv env env' true initial) = Raise (SystemExit 1)
      /\ exit_status (fst (module_body lenv env env' true initial)) = 1)
  /\ (e_runner_cleanup env = Ok tt ->
      Exists (fun e => handler_crashed e = true)
        (timeline (snd (main env initial))) ->
      fst (module_body lenv env env' true initial) = Raise (SystemExit 1)
      /\ exit_status (fst (module_body lenv env env' true initial)) = 1).
Proof.
  intros Hrun.
  destruct (main_outcome env) as (Hv & Hu & Hc).
  pose proof (main_facts env) as (_ & _ & _ & _ & _ & _ & _ & Happ).
  pose proof (signal_handler_is_never_installed env) as (Hi & _).
  split; [|split; [exact Hi|split]].
  - intros msg Hclean Hint Hct.
    pose proof (Hu Hclean (Exists_existsb _ _ Hint)) as Hm.
    split; [exact Hm|].
    assert (fst (module_body lenv env env' true initial)
            = Raise (Exc (OtherError "RuntimeError") msg)) as H.
    { destruct Hrun as (Hl & Hr & Ha).
      unfold module_body, entry_point, try_except, bind, lift, ret, raise.
      rewrite Hl, Hr, Ha. cbv beta iota.
      destruct (main env initial) as [r s1]. simpl in Hm, Happ |- *.
      subst r.
      destruct (create_app_after env' s1 Happ) as (_ & _ & H3).
      rewrite Hct in H3.
      destruct (create_app env' s1) as [r2 s2]. simpl in H3 |- *.
      subst r2. reflexivity. }
    rewrite H. split; reflexivity.
  - intros H. rewrite (script_passes_exit lenv env env' 1 Hrun (Hv H)).
    split; reflexivity.
  - intros Hclean H.
    rewrite (script_passes_exit lenv env env' 1 Hrun
               (Hc Hclean (Exists_existsb _ _ H))).
    split; reflexivity.
Qed.

Lemma script_exit_status_witness :
  fst (module_body loop_idle env_interrupt env_no_loop true initial)
  = Raise (Exc (OtherError "RuntimeError") "no running event loop")
  /\ exit_status
       (fst (module_body loop_idle env_interrupt env_no_loop true initial))
     = 1
  /\ exit_status
       (fst (module_body loop_idle env_missing_credential env_no_loop true
               initial)) = 1
  /\ exit_status
       (fst (module_body loop_idle env_crash env_no_loop true initial)) = 1.
Proof.
  split; [|split; [|split]].
  - destruct (script_exit_status loop_idle env_interrupt env_no_loop)
      as (H & _); [repeat split|].
    destruct (H "no running event loop") as (_ & H1 & _);
      [reflexivity | | reflexivity | exact H1].
    apply List.Exists_exists.
    exists (Call handler_run (Some KeyboardInterrupt)).
    split; [find_in | reflexivity].
  - destruct (script_exit_status loop_idle env_interrupt env_no_loop)
      as (H & _); [repeat split|].
    destruct (H "no running event loop") as (_ & _ & H1);
      [reflexivity | | reflexivity | exact H1].
    apply List.Exists_exists.
    exists (Call handler_run (Some KeyboardInterrupt)).
    split; [find_in | reflexivity].
  - destruct (script_exit_status loop_idle env_missing_credential env_no_loop)
      as (_ & _ & H & _); [repeat split|].
    apply H. reflexivity.
  - destruct (script_exit_status loop_idle env_crash env_no_loop)
      as (_ & _ & _ & H); [repeat split|].
    apply H; [reflexivity|]. apply List.Exists_exists.
    exists (Call handler_run
              (Some (Exc (OtherError "NetworkError") "connection lost"))).
    split; [find_in | reflexivity].
Defined.
